(** * BackgroundShellDisplay: selection, input routing, tab layout

    A shallow embedding of
    [packages/cli/src/ui/components/BackgroundShellDisplay.tsx].

    The component is a React function component.  Its observable behaviour
    is modelled by explicit state passing:
    - the props of one render are a record [Props];
    - the two [useState] cells are a record [LocalState];
    - every call to a capability or callback that the component receives
      from outside ([ShellExecutionService.resizePty], [writeToPty],
      [setActiveBackgroundShellPid], ...) is logged as a [Call];
    - an effect is a function from the props of the render and the local
      state to the new local state and the calls it issued, guarded by
      the comparison of its dependency array with the previous render;
    - the keypress callback is a function of the props captured by the
      last render, the local state and the key.

    JavaScript numbers are modelled by [Z] (the component only ever sees
    integral cell counts, process ids and indices), [%] by [Z.rem],
    strings by [string] read as their sequence of code units (of the
    8-bit range, which covers every literal of the component), [Map] by
    an insertion-ordered association list together with the identity of
    the map object, which is what a dependency array compares. *)

From Stdlib Require Import ZArith List String Ascii Bool Lia.
From Stdlib Require Import DecimalString.
Import ListNotations.

Open Scope Z_scope.

(** ** JavaScript values used by the component *)

(** Identity of a heap object.  [Object.is] on two objects compares
    these. *)
Definition Ref := positive.

Inductive ShellStatus := running | exited.

(** [string | AnsiOutput]: a string is compared by value, an [AnsiOutput]
    grid is an object. *)
Inductive Output :=
| OutText (s : string)
| OutAnsi (id : Ref) (grid : list (list string)).

(** The fields of [BackgroundShell] that the component reads. *)
Record BackgroundShell := mkShell {
  shell_id : Ref;
  pid : Z;
  command : string;
  status : ShellStatus;
  exitCode : option Z;
  output : Output
}.

(** [Map<number, BackgroundShell>]: the entries in insertion order. *)
Record ShellMap := mkMap {
  map_id : Ref;
  entries : list (Z * BackgroundShell)
}.

Definition mapGet (m : ShellMap) (k : Z) : option BackgroundShell :=
  option_map snd (find (fun e => fst e =? k) (entries m)).

Definition mapHas (m : ShellMap) (k : Z) : bool :=
  existsb (fun e => fst e =? k) (entries m).

Definition mapKeys (m : ShellMap) : list Z := map fst (entries m).

Definition mapValues (m : ShellMap) : list BackgroundShell :=
  map snd (entries m).

Definition mapSize (m : ShellMap) : Z := Z.of_nat (List.length (entries m)).

(** [Array.prototype.indexOf]: first position, or [-1]. *)
Fixpoint indexOfFrom (x : Z) (i : Z) (l : list Z) : Z :=
  match l with
  | [] => -1
  | y :: l' => if y =? x then i else indexOfFrom x (i + 1) l'
  end.

Definition indexOf (x : Z) (l : list Z) : Z := indexOfFrom x 0 l.

(** [arr[i]]: [undefined] outside of the array. *)
Definition arrayGet (l : list Z) (i : Z) : option Z :=
  if i <? 0 then None else nth_error l (Z.to_nat i).

(** Truthiness of a [number | undefined]. *)
Definition truthyNum (v : option Z) : bool :=
  match v with
  | Some n => negb (n =? 0)
  | None => false
  end.

(** Truthiness of a [string | undefined]. *)
Definition truthyStr (v : option string) : bool :=
  match v with
  | Some s => negb (String.eqb s "")
  | None => false
  end.

(** The fields of a decoded key event that the component reads. *)
Record Key := mkKey {
  name : string;
  ctrl : bool;
  sequence : option string
}.

Record Props := mkProps {
  shells : ShellMap;
  activePid : Z;
  width : Z;
  height : Z;
  isFocused : bool;
  isListOpenProp : bool
}.

(** The two [useState] cells. *)
Record LocalState := mkLocal {
  outputState : Output;
  listSelectionIndex : Z
}.

Definition initialState : LocalState := mkLocal (OutText "") 0.

Definition setOutput (st : LocalState) (o : Output) : LocalState :=
  mkLocal o (listSelectionIndex st).

Definition setListSelectionIndex (st : LocalState) (i : Z) : LocalState :=
  mkLocal (outputState st) i.

(** Calls leaving the component. *)
Inductive Call :=
| ResizePty (p cols rows : Z)
| WriteToPty (p : Z) (data : string)
| SetActiveBackgroundShellPid (p : Z)
| SetIsBackgroundShellListOpen (b : bool)
| DismissBackgroundShell (p : Z).

Definition CONTENT_PADDING_X : Z := 1.
Definition RIGHT_TEXT : string := "Ctrl+B Hide | Ctrl+K Kill".
Definition TAB_DISPLAY_HORIZONTAL_PADDING : Z := 4.

Definition activeShell (p : Props) : option BackgroundShell :=
  mapGet (shells p) (activePid p).

(** ** Effects *)

(** Body of the resize effect. *)
Definition resizeEffect (p : Props) : list Call :=
  if negb (mapHas (shells p) (activePid p)) then []
  else
    let ptyWidth :=
      Z.max 1 (width p - TAB_DISPLAY_HORIZONTAL_PADDING / 2
                       - CONTENT_PADDING_X * 2) in
    let ptyHeight := Z.max 1 (height p - 3) in
    [ResizePty (activePid p) ptyWidth ptyHeight].

(** Body of the output effect. *)
Definition outputEffect (p : Props) (st : LocalState) : LocalState :=
  match activeShell p with
  | Some sh => setOutput st (output sh)
  | None => st
  end.

(** Body of the effect that synchronises the list selection. *)
Definition listSyncEffect (p : Props) (st : LocalState) : LocalState :=
  if isListOpenProp p then
    match activeShell p with
    | Some sh =>
        let shellPids := mapKeys (shells p) in
        let index := indexOf (pid sh) shellPids in
        if negb (index =? -1) then setListSelectionIndex st index else st
    | None => st
    end
  else st.

(** Body of the mount effect. *)
Definition mountEffect (p : Props) : list Call :=
  if mapSize (shells p) =? 1 then [SetIsBackgroundShellListOpen false]
  else if mapSize (shells p) >? 1 then [SetIsBackgroundShellListOpen true]
  else [].

(** *** Dependency arrays *)

Definition sameShell (a b : option BackgroundShell) : bool :=
  match a, b with
  | None, None => true
  | Some x, Some y => Pos.eqb (shell_id x) (shell_id y)
  | _, _ => false
  end.

Definition sameOutput (a b : option Output) : bool :=
  match a, b with
  | None, None => true
  | Some (OutText s), Some (OutText t) => String.eqb s t
  | Some (OutAnsi i _), Some (OutAnsi j _) => Pos.eqb i j
  | _, _ => false
  end.

Definition sameMap (a b : ShellMap) : bool := Pos.eqb (map_id a) (map_id b).

(** [[activePid, width, height, shells]] *)
Definition resizeDepsSame (q p : Props) : bool :=
  (activePid q =? activePid p) && (width q =? width p)
  && (height q =? height p) && sameMap (shells q) (shells p).

(** [[activeShell, activeShell?.output]] *)
Definition outputDepsSame (q p : Props) : bool :=
  sameShell (activeShell q) (activeShell p)
  && sameOutput (option_map output (activeShell q))
                (option_map output (activeShell p)).

(** [[isListOpenProp, activeShell, shells]] *)
Definition listSyncDepsSame (q p : Props) : bool :=
  Bool.eqb (isListOpenProp q) (isListOpenProp p)
  && sameShell (activeShell q) (activeShell p)
  && sameMap (shells q) (shells p).

(** [[]] *)
Definition mountDepsSame (q p : Props) : bool := true.

(** [useEffect]: the body runs after the first render, and after a later
    render when some dependency differs from the previous render. *)
Definition effectFires (same : Props -> Props -> bool)
    (prev : option Props) (p : Props) : bool :=
  match prev with
  | None => true
  | Some q => negb (same q p)
  end.

Definition resizeCalls (prev : option Props) (p : Props) : list Call :=
  if effectFires resizeDepsSame prev p then resizeEffect p else [].

Definition mountCalls (prev : option Props) (p : Props) : list Call :=
  if effectFires mountDepsSame prev p then mountEffect p else [].

(** The effects of one render, in the order of their declaration. *)
Definition commit (prev : option Props) (p : Props) (st : LocalState)
  : LocalState * list Call :=
  let c1 := resizeCalls prev p in
  let st1 := if effectFires outputDepsSame prev p
             then outputEffect p st else st in
  let st2 := if effectFires listSyncDepsSame prev p
             then listSyncEffect p st1 else st1 in
  let c2 := mountCalls prev p in
  (st2, c1 ++ c2).

(** ** Keypress handler *)

Definition CR : string := String "013"%char EmptyString.
Definition BS : string := String "008"%char EmptyString.

(** The two updaters passed to [setListSelectionIndex].  [%] is the
    truncated remainder; the handler reaches them only with an active
    shell, hence with [len >= 1]. *)
Definition navUp (len prev : Z) : Z := Z.rem (prev - 1 + len) len.
Definition navDown (len prev : Z) : Z := Z.rem (prev + 1) len.

(** The commit branches: select the highlighted pid, if there is one, and
    close the list. *)
Definition commitSelection (shellPids : list Z) (st : LocalState)
  : list Call :=
  let selectedPid := arrayGet shellPids (listSelectionIndex st) in
  (if truthyNum selectedPid
   then match selectedPid with
        | Some s => [SetActiveBackgroundShellPid s]
        | None => []
        end
   else [])
  ++ [SetIsBackgroundShellListOpen false].

Section Handler.

(** [keyMatchers[Command.TOGGLE_BACKGROUND_SHELL]] is defined in
    [keyMatchers.ts], outside of this file: the handler is embedded for an
    arbitrary matcher. *)
Variable toggleBackgroundShell : Key -> bool.

(** The callback passed to [useKeypress]. *)
Definition handleKeypress (p : Props) (st : LocalState) (key : Key)
  : LocalState * list Call :=
  match activeShell p with
  | None => (st, [])
  | Some sh =>
    if isListOpenProp p then
      let shellPids := mapKeys (shells p) in
      let len := Z.of_nat (List.length shellPids) in
      if String.eqb (name key) "up" then
        (setListSelectionIndex st (navUp len (listSelectionIndex st)), [])
      else if String.eqb (name key) "down" then
        (setListSelectionIndex st (navDown len (listSelectionIndex st)), [])
      else if String.eqb (name key) "return"
              || String.eqb (name key) "enter" then
        (st, commitSelection shellPids st)
      else if String.eqb (name key) "escape" then
        (st, [SetIsBackgroundShellListOpen false])
      else if ctrl key && String.eqb (name key) "o" then
        (st, commitSelection shellPids st)
      else (st, [])
    else if toggleBackgroundShell key then (st, [])
    else if ctrl key && String.eqb (name key) "k" then
      (st, [DismissBackgroundShell (pid sh)])
    else if ctrl key && String.eqb (name key) "o" then
      (st, [SetIsBackgroundShellListOpen true])
    else if String.eqb (name key) "return" then
      (st, [WriteToPty (pid sh) CR])
    else if String.eqb (name key) "backspace" then
      (st, [WriteToPty (pid sh) BS])
    else if truthyStr (sequence key) then
      match sequence key with
      | Some s => (st, [WriteToPty (pid sh) s])
      | None => (st, [])
      end
    else (st, [])
  end.

(** The [isActive] option given to [useKeypress]. *)
Definition isActive (p : Props) : bool :=
  isFocused p && match activeShell p with Some _ => true | None => false end.

(** Modelled from the spec: the hook [useKeypress] of
    [hooks/useKeypress.ts] is not part of this file.  It subscribes the
    callback to the decoded key-event source while [isActive] holds, and
    a key event reaches no callback otherwise. *)
Definition useKeypress
    (handler : LocalState -> Key -> LocalState * list Call)
    (active : bool) (st : LocalState) (key : Key)
  : LocalState * list Call :=
  if active then handler st key else (st, []).

Definition onKeypress (p : Props) (st : LocalState) (key : Key)
  : LocalState * list Call :=
  useKeypress (handleKeypress p) (isActive p) st key.

(** ** The mounted component *)

Inductive Event :=
| Render (p : Props)
| Keypress (key : Key).

(** [rendered] is [None] before the first render; afterwards it holds the
    props of the last render, which the effects compare against and which
    the keypress callback has captured.  [local] is the current value of
    the two state cells.  [captured] is their value as the last render
    read it: the callback subscribed by that render reads
    [listSelectionIndex] from there, while the updaters it passes to
    [setListSelectionIndex] are applied to the current value. *)
Record Component := mkComponent {
  rendered : option Props;
  local : LocalState;
  captured : LocalState
}.

Definition unmounted : Component :=
  mkComponent None initialState initialState.

(** A render reads the current state and then runs its effects, which
    may set the state again; the render that follows such a change is a
    further [Render] event with the same props.  A key runs the callback
    of the last render: the calls are those of the handler on the state
    that render read, the new state is that of the handler on the
    current state (the handler writes the state through updaters only,
    and its branches do not depend on the state). *)
Definition step (c : Component) (e : Event) : Component * list Call :=
  match e with
  | Render p =>
      let (st, calls) := commit (rendered c) p (local c) in
      (mkComponent (Some p) st (local c), calls)
  | Keypress key =>
      match rendered c with
      | None => (c, [])
      | Some p =>
          (mkComponent (Some p) (fst (onKeypress p (local c) key))
                       (captured c),
           snd (onKeypress p (captured c) key))
      end
  end.

(** The component after a sequence of events, and the calls issued by
    each event. *)
Fixpoint run (c : Component) (es : list Event)
  : Component * list (list Call) :=
  match es with
  | [] => (c, [])
  | e :: es' =>
      let (c1, calls) := step c e in
      let (c2, log) := run c1 es' in
      (c2, calls :: log)
  end.

End Handler.

(** ** Tab layout *)

Inductive Color := white | red | gray | blue | yellow.

Inductive ElemKey := KeyPid (p : Z) | KeyStr (s : string).

(** A rendered [<Text>] element: its key, the style props and the
    concatenated text children. *)
Record TextElem := mkText {
  key : ElemKey;
  color : Color;
  backgroundColor : option Color;
  bold : bool;
  text : string
}.

(** [String.prototype.split] with a separator of one code unit. *)
Fixpoint split (sep : ascii) (s : string) : list string :=
  match s with
  | EmptyString => [EmptyString]
  | String c s' =>
      if Ascii.eqb c sep then EmptyString :: split sep s'
      else match split sep s' with
           | w :: ws => String c w :: ws
           | [] => [String c EmptyString]
           end
  end.

(** A number inside a template literal. *)
Definition numToString (n : nat) : string :=
  NilEmpty.string_of_uint (Nat.to_uint n).

Definition tabLabel (i : nat) (shell : BackgroundShell) : string :=
  (" " ++ numToString (i + 1) ++ ": "
       ++ hd EmptyString (split " " (command shell)) ++ " ")%string.

Definition statusEqb (a b : ShellStatus) : bool :=
  match a, b with
  | running, running | exited, exited => true
  | _, _ => false
  end.

Definition tabElem (active : Z) (label : string) (shell : BackgroundShell)
  : TextElem :=
  let isActive := pid shell =? active in
  let isExited := statusEqb (status shell) exited in
  mkText (KeyPid (pid shell))
         (if isActive then white else if isExited then red else gray)
         (if isActive then Some (if isExited then red else blue) else None)
         isActive
         (label ++ (if isExited then "(Exited)" else ""))%string.

Definition overflowElem : TextElem :=
  mkText (KeyStr "overflow") yellow None true " ... (Ctrl+O) ".

Definition pidTextEstimate : Z := 25.

Definition availableWidth (p : Props) : Z :=
  width p - TAB_DISPLAY_HORIZONTAL_PADDING
          - Z.of_nat (String.length RIGHT_TEXT) - pidTextEstimate.

(** The [for] loop of [renderTabs], from index [i] on: [rest] is
    [shellList.slice(i)]; the result is [tabs] and [overflow] when the
    loop is left. *)
Fixpoint tabsLoop (active avail : Z) (i : nat) (rest : list BackgroundShell)
    (tabs : list TextElem) (currentWidth : Z) : list TextElem * bool :=
  match rest with
  | [] => (tabs, false)
  | shell :: rest' =>
      let label := tabLabel i shell in
      let labelWidth := Z.of_nat (String.length label) in
      if currentWidth + labelWidth >? avail then (tabs, true)
      else tabsLoop active avail (S i) rest'
                    (tabs ++ [tabElem active label shell])
                    (currentWidth + labelWidth)
  end.

(** [tabs] and [overflow] after the loop. *)
Definition layout (p : Props) : list TextElem * bool :=
  tabsLoop (activePid p) (availableWidth p) 0 (mapValues (shells p)) [] 0.

Definition renderTabs (p : Props) : list TextElem :=
  let (tabs, overflow) := layout p in
  if overflow then tabs ++ [overflowElem] else tabs.

(** ** Process list and panel body *)

(** A number of type [number] inside a template literal or as a JSX
    child. *)
Definition zToString (z : Z) : string :=
  NilEmpty.string_of_int (Z.to_int z).

(** [${shell.exitCode}]: the field is optional. *)
Definition exitCodeText (c : option Z) : string :=
  match c with
  | Some z => zToString z
  | None => "undefined"
  end.

(** A row of the process list: its key, the style props (colours are
    the string literals of the source) and the concatenated text
    children. *)
Record RowElem := mkRow {
  rowKey : ElemKey;
  rowColor : string;
  rowBackgroundColor : option string;
  rowText : string
}.

Definition LIST_TITLE : string :=
  "Select Process (Enter to select, Esc to cancel):".

(** The callback of [shellList.map] in [renderProcessList]. *)
Definition processRow (selection : Z) (index : nat) (shell : BackgroundShell)
  : RowElem :=
  let isSelected := Z.of_nat index =? selection in
  let statusText :=
    (if statusEqb (status shell) exited
     then " (Exited: " ++ exitCodeText (exitCode shell) ++ ")"
     else "")%string in
  mkRow (KeyPid (pid shell))
        (if isSelected then "black" else "white")
        (if isSelected then Some "green"%string else None)
        ((if isSelected then "> " else "  ") ++ " "
           ++ numToString (index + 1) ++ ": " ++ command shell
           ++ " (PID:" ++ " " ++ zToString (pid shell) ++ ")"
           ++ statusText)%string.

Fixpoint processRows (selection : Z) (index : nat)
    (l : list BackgroundShell) : list RowElem :=
  match l with
  | [] => []
  | shell :: l' =>
      processRow selection index shell :: processRows selection (S index) l'
  end.

(** [renderProcessList]: the title and one row per shell. *)
Definition renderProcessList (p : Props) (st : LocalState)
  : string * list RowElem :=
  (LIST_TITLE, processRows (listSelectionIndex st) 0 (mapValues (shells p))).

(** The content box of the panel. *)
Inductive Body :=
| BodyList (title : string) (rows : list RowElem)
| BodyText (s : string)
| BodyAnsi (data : list (list string)) (cols availableTerminalHeight : Z).

Definition renderBody (p : Props) (st : LocalState) : Body :=
  if isListOpenProp p then
    let (title, rows) := renderProcessList p st in BodyList title rows
  else
    match outputState st with
    | OutText s => BodyText s
    | OutAnsi _ grid =>
        BodyAnsi grid
                 (Z.max 1 (width p - 2 - CONTENT_PADDING_X * 2))
                 (Z.max 1 (height p - 3))
    end.

(** The same render in a panel of another width. *)
Definition withWidth (p : Props) (w : Z) : Props :=
  mkProps (shells p) (activePid p) w (height p) (isFocused p)
          (isListOpenProp p).

Definition isSelectedRow (r : RowElem) : bool :=
  match rowBackgroundColor r with
  | Some _ => true
  | None => false
  end.

Definition isWriteCall (c : Call) : bool :=
  match c with
  | WriteToPty _ _ => true
  | _ => false
  end.

(** ** Vocabulary of the statements *)

(** The local state after a sequence of keys, all handled under the
    props of one render. *)
Definition afterKeys toggle (p : Props) (st : LocalState) (ks : list Key)
  : LocalState :=
  fold_left (fun s k => fst (handleKeypress toggle p s k)) ks st.


(** The label of every tab the loop would emit without a width limit. *)
Fixpoint sessionTabs (active : Z) (i : nat) (l : list BackgroundShell)
  : list TextElem :=
  match l with
  | [] => []
  | shell :: l' =>
      tabElem active (tabLabel i shell) shell :: sessionTabs active (S i) l'
  end.

(** Total width of the labels of [l], the first one at position [i]. *)
Fixpoint labelsWidth (i : nat) (l : list BackgroundShell) : Z :=
  match l with
  | [] => 0
  | shell :: l' =>
      Z.of_nat (String.length (tabLabel i shell)) + labelsWidth (S i) l'
  end.

(** Width of the labels of the first [n] sessions. *)
Definition prefixWidth (n : nat) (l : list BackgroundShell) : Z :=
  labelsWidth 0 (firstn n l).

(** The part of a string before its first space. *)
Fixpoint beforeFirstSpace (s : string) : string :=
  match s with
  | EmptyString => EmptyString
  | String c s' =>
      if Ascii.eqb c " " then EmptyString else String c (beforeFirstSpace s')
  end.

Fixpoint noSpace (s : string) : bool :=
  match s with
  | EmptyString => true
  | String c s' => negb (Ascii.eqb c " ") && noSpace s'
  end.

(** The label as the specification words it: the first
    whitespace-delimited token of the command. *)
Definition isWhitespace (c : ascii) : bool :=
  let n := nat_of_ascii c in
  (Nat.eqb n 32 || (Nat.leb 9 n && Nat.leb n 13))%bool.

Fixpoint takeToken (s : string) : string :=
  match s with
  | EmptyString => EmptyString
  | String c s' =>
      if isWhitespace c then EmptyString else String c (takeToken s')
  end.

Fixpoint spec_firstToken (s : string) : string :=
  match s with
  | EmptyString => EmptyString
  | String c s' =>
      if isWhitespace c then spec_firstToken s' else String c (takeToken s')
  end.

Definition spec_tabLabel (i : nat) (shell : BackgroundShell) : string :=
  (" " ++ numToString (i + 1) ++ ": "
       ++ spec_firstToken (command shell) ++ " ")%string.

Fixpoint noWhitespace (s : string) : bool :=
  match s with
  | EmptyString => true
  | String c s' => negb (isWhitespace c) && noWhitespace s'
  end.

Definition startsWithWhitespace (s : string) : bool :=
  match s with
  | EmptyString => false
  | String c _ => isWhitespace c
  end.

Definition isPickerCall (c : Call) : bool :=
  match c with
  | SetIsBackgroundShellListOpen _ => true
  | _ => false
  end.

Definition isResizeCall (c : Call) : bool :=
  match c with
  | ResizePty _ _ _ => true
  | _ => false
  end.

(** The same render with another value of the picker flag. *)
Definition withListOpen (p : Props) (b : bool) : Props :=
  mkProps (shells p) (activePid p) (width p) (height p) (isFocused p) b.

(** Every entry is stored under the pid of its shell. *)
Definition wellKeyed (m : ShellMap) : bool :=
  forallb (fun e => fst e =? pid (snd e)) (entries m).

(** The registry is updated immutably: a [Map] object that two renders
    share has the same entries in both. *)
Definition sharedMapUnchanged (q p : Props) : Prop :=
  map_id (shells q) = map_id (shells p) ->
  entries (shells q) = entries (shells p).

(** An [AnsiOutput] grid is not mutated between two renders: the
    grids of the active shells of both renders are equal when they are
    the same object. *)
Definition gridKeepsIdentity (q p : Props) : Prop :=
  forall (a b : BackgroundShell) (i : Ref) (g h : list (list string)),
    activeShell q = Some a -> activeShell p = Some b ->
    output a = OutAnsi i g -> output b = OutAnsi i h -> g = h.

(** The same along a sequence of events, [prev] being the props of the
    last render before it. *)
Fixpoint gridsKeepIdentity (prev : option Props) (es : list Event) : Prop :=
  match es with
  | [] => True
  | Render p :: es' =>
      match prev with
      | Some q => gridKeepsIdentity q p
      | None => True
      end
      /\ gridsKeepIdentity (Some p) es'
  | Keypress _ :: es' => gridsKeepIdentity prev es'
  end.

(** The stored output is the output of the active shell of the last
    render, when there is one. *)
Definition showsActiveOutput (c : Component) : Prop :=
  forall (p : Props) (sh : BackgroundShell),
    rendered c = Some p -> activeShell p = Some sh ->
    outputState (local c) = output sh.

(** ** Sample data *)

Module Sample.

(** Modelled from the spec: the binding of
    [Command.TOGGLE_BACKGROUND_SHELL] lives in the key-binding table,
    outside of this file; the hint text [RIGHT_TEXT] advertises it as
    Ctrl+B. *)
Definition ctrlB (k : Key) : bool := ctrl k && String.eqb (name k) "b".

Definition TAB : string := String "009"%char EmptyString.
Definition LF : string := String "010"%char EmptyString.

Definition shell (n : positive) (cmd : string) : BackgroundShell :=
  mkShell n (Z.pos n) cmd running None (OutText "").

Definition npm : BackgroundShell := shell 1 "npm run build".
Definition tsc : BackgroundShell := shell 2 "tsc --watch".
Definition vite : BackgroundShell := shell 3 "vite".
Definition jest : BackgroundShell := shell 4 "jest --watch".
Definition serve : BackgroundShell := shell 5 "serve dist".

Definition registry (id : positive) (l : list BackgroundShell) : ShellMap :=
  mkMap id (map (fun s => (pid s, s)) l).

Definition one : ShellMap := registry 10 [npm].
Definition two : ShellMap := registry 11 [npm; tsc].
Definition three : ShellMap := registry 12 [npm; tsc; vite].
Definition five : ShellMap := registry 13 [npm; tsc; vite; jest; serve].
Definition none : ShellMap := registry 14 [].

Definition keyNamed (n : string) : Key := mkKey n false None.
Definition keyTyped (n : string) (s : string) : Key := mkKey n false (Some s).
Definition ctrlKey (n : string) : Key := mkKey n true None.

Definition at_index (i : Z) : LocalState := mkLocal (OutText "") i.

(** Focused panel, one session, list closed. *)
Definition closedOne : Props := mkProps one 1 80 24 true false.
(** Focused panel, two and five sessions, list open. *)
Definition openTwo : Props := mkProps two 1 80 24 true true.
Definition openFive : Props := mkProps five 3 80 24 true true.
(** Focused panel whose active pid is not in the registry. *)
Definition strayActive : Props := mkProps one 9 80 24 true false.
(** Focused panel over an empty registry. *)
Definition emptyFocused : Props := mkProps none 1 80 24 true true.
(** Two sessions, list closed. *)
Definition closedTwo : Props := mkProps two 1 80 24 true false.
(** The [Map] object of [two] when it held the first session only: the
    second one is then added in place. *)
Definition twoBefore : ShellMap := registry 11 [npm].
Definition closedTwoBefore : Props := mkProps twoBefore 1 80 24 true false.
(** Three sessions with the last one active and the list open; then the
    active session has left the registry, with the list closed and with
    the list open again. *)
Definition openThree : Props := mkProps three 3 80 24 true true.
Definition closedGone : Props := mkProps two 3 80 24 true false.
Definition openGone : Props := mkProps two 3 80 24 true true.
(** Five sessions in a panel 72 cells wide: the label budget is 18. *)
Definition narrowFive : Props := mkProps five 3 72 24 true false.
(** The same in a panel 120 cells wide: the label budget is 66. *)
Definition wideFive : Props := mkProps five 3 120 24 true false.
(** Commands whose first white space is a tab, or that start with a
    space. *)
Definition tabbed : BackgroundShell := shell 6 ("make" ++ TAB ++ "all").
Definition padded : BackgroundShell := shell 7 " npm run build".
Definition oddCommands : Props :=
  mkProps (registry 15 [tabbed; padded]) 6 80 24 true false.

End Sample.

(** * Properties *)

(** ** The registry *)

Lemma mapHas_mapGet (m : ShellMap) (k : Z) :
  mapHas m k = match mapGet m k with Some _ => true | None => false end.
Proof.
  unfold mapHas, mapGet. induction (entries m) as [|e l IH]; simpl.
  - reflexivity.
  - destruct (fst e =? k); simpl; auto.
Qed.

Lemma mapGet_size (m : ShellMap) (k : Z) (sh : BackgroundShell) :
  mapGet m k = Some sh -> 0 < mapSize m.
Proof.
  unfold mapGet, mapSize. destruct (entries m); simpl.
  - discriminate.
  - lia.
Qed.

Lemma mapKeys_length (m : ShellMap) :
  Z.of_nat (List.length (mapKeys m)) = mapSize m.
Proof. unfold mapKeys, mapSize. now rewrite length_map. Qed.

Lemma mapGet_empty (m : ShellMap) (k : Z) :
  mapSize m = 0 -> mapGet m k = None.
Proof.
  unfold mapSize, mapGet. destruct (entries m); simpl; [reflexivity | lia].
Qed.

(** ** The keypress handler *)

Lemma onKeypress_inactive toggle (p : Props) (st : LocalState) (k : Key) :
  isActive p = false -> onKeypress toggle p st k = (st, []).
Proof.
  intros H. unfold onKeypress, useKeypress. now rewrite H.
Qed.

Lemma onKeypress_active toggle (p : Props) (st : LocalState) (k : Key) :
  isActive p = true -> onKeypress toggle p st k = handleKeypress toggle p st k.
Proof.
  intros H. unfold onKeypress, useKeypress. now rewrite H.
Qed.

Lemma handleKeypress_no_active toggle (p : Props) (st : LocalState) (k : Key) :
  activeShell p = None -> handleKeypress toggle p st k = (st, []).
Proof.
  intros H. unfold handleKeypress. now rewrite H.
Qed.

Lemma isActive_spec (p : Props) :
  isActive p = true <->
  isFocused p = true /\ mapHas (shells p) (activePid p) = true.
Proof.
  unfold isActive. rewrite mapHas_mapGet. fold (activeShell p).
  rewrite andb_true_iff. reflexivity.
Qed.

(** No key reaches the handler, or the handler returns at once: in both
    cases nothing happens. *)
Lemma onKeypress_no_active toggle (p : Props) (st : LocalState) (k : Key) :
  activeShell p = None -> onKeypress toggle p st k = (st, []).
Proof.
  intros H. apply onKeypress_inactive. unfold isActive. rewrite H.
  apply andb_false_r.
Qed.

Ltac name_neq :=
  repeat match goal with
         | H : name ?k <> ?s |- context [String.eqb (name ?k) ?s] =>
             rewrite (proj2 (String.eqb_neq (name k) s) H)
         end.

(** C8.  While the list is open, a key that is none of up, down,
    return, enter, escape and Ctrl+O is swallowed: the handler writes to
    no pseudo-terminal, calls no setter and leaves the selection index as
    it is.  This holds for the callback itself and for the subscribed
    callback. *)
Theorem C8_open_list_swallows_other_keys
    toggle (p : Props) (st : LocalState) (k : Key) :
  isListOpenProp p = true ->
  name k <> "up"%string -> name k <> "down"%string ->
  name k <> "return"%string -> name k <> "enter"%string ->
  name k <> "escape"%string ->
  ~ (ctrl k = true /\ name k = "o"%string) ->
  handleKeypress toggle p st k = (st, [])
  /\ onKeypress toggle p st k = (st, []).
Proof.
  intros Hopen Hup Hdown Hret Hent Hesc Hconfirm.
  assert (Hh : handleKeypress toggle p st k = (st, [])).
  { unfold handleKeypress. destruct (activeShell p) as [sh|]; [|reflexivity].
    rewrite Hopen. name_neq. simpl.
    destruct (ctrl k) eqn:Hc; simpl; [|reflexivity].
    destruct (String.eqb_spec (name k) "o"); [|reflexivity].
    exfalso. apply Hconfirm. split; congruence. }
  split; [exact Hh|].
  unfold onKeypress, useKeypress. destruct (isActive p); [exact Hh|reflexivity].
Qed.

Lemma C8_open_list_swallows_other_keys_witness :
  handleKeypress Sample.ctrlB
    (mkProps Sample.two 1 80 24 true true) (Sample.at_index 1)
    (Sample.keyTyped "x" "x")
  = (Sample.at_index 1, [])
  /\ onKeypress Sample.ctrlB
    (mkProps Sample.two 1 80 24 true true) (Sample.at_index 1)
    (Sample.keyTyped "x" "x")
  = (Sample.at_index 1, []).
Proof.
  apply C8_open_list_swallows_other_keys; simpl;
    try reflexivity; try discriminate.
  intros [H _]. discriminate H.
Defined.

(** C4, as stated, fails for the key named [enter]: with the list closed
    the handler forwards the raw sequence of that key, a line feed here,
    and forwards nothing when the key carries no sequence. *)
Lemma C4_enter_is_forwarded_verbatim :
  activeShell Sample.closedOne = Some Sample.npm
  /\ isListOpenProp Sample.closedOne = false
  /\ onKeypress Sample.ctrlB Sample.closedOne initialState
        (Sample.keyTyped "enter" Sample.LF)
      = (initialState, [WriteToPty 1 Sample.LF])
  /\ [WriteToPty 1 Sample.LF] <> [WriteToPty 1 CR]
  /\ onKeypress Sample.ctrlB Sample.closedOne initialState
        (Sample.keyNamed "enter")
      = (initialState, []).
Proof.
  repeat split; try reflexivity. discriminate.
Qed.

(** C4, amended.  With the list closed and an active shell present, a
    key named [return] that is not the panel-toggle shortcut makes the
    handler write the carriage return to the pty of the active shell,
    once, and nothing else: no setter is called and the local state is
    returned as it was.  A key named [enter] is forwarded like any other
    key: its raw sequence when it has one, nothing otherwise.  With focus
    the subscribed callback is the handler. *)
Theorem C4_closed_return_writes_carriage_return
    toggle (p : Props) (st : LocalState) (k : Key) (sh : BackgroundShell) :
  activeShell p = Some sh ->
  isListOpenProp p = false ->
  toggle k = false ->
  (name k = "return"%string ->
     handleKeypress toggle p st k = (st, [WriteToPty (pid sh) CR]))
  /\ (name k = "enter"%string ->
       handleKeypress toggle p st k
       = (st, match sequence k with
              | Some s => if String.eqb s "" then []
                          else [WriteToPty (pid sh) s]
              | None => []
              end))
  /\ (isFocused p = true ->
       onKeypress toggle p st k = handleKeypress toggle p st k).
Proof.
  intros Hact Hclosed Htoggle. repeat split.
  - intros Hn. unfold handleKeypress.
    rewrite Hact, Hclosed, Htoggle, Hn. simpl.
    rewrite !andb_false_r. reflexivity.
  - intros Hn. unfold handleKeypress.
    rewrite Hact, Hclosed, Htoggle, Hn. simpl.
    rewrite !andb_false_r. unfold truthyStr.
    destruct (sequence k) as [s|]; [|reflexivity].
    destruct (String.eqb s ""); reflexivity.
  - intros Hf. apply onKeypress_active. unfold isActive.
    now rewrite Hf, Hact.
Qed.

Lemma C4_closed_return_writes_carriage_return_witness :
  handleKeypress Sample.ctrlB Sample.closedOne initialState
    (Sample.keyTyped "return" CR)
  = (initialState, [WriteToPty 1 CR]).
Proof.
  apply (C4_closed_return_writes_carriage_return Sample.ctrlB
           Sample.closedOne initialState (Sample.keyTyped "return" CR)
           Sample.npm); reflexivity.
Defined.

Lemma arrayGet_beyond (l : list Z) (i : Z) :
  Z.of_nat (List.length l) <= i -> arrayGet l i = None.
Proof.
  intros H. unfold arrayGet. destruct (i <? 0); [reflexivity|].
  apply nth_error_None. lia.
Qed.

(** C10, as stated, fails when the active pid has left the registry,
    which is how the index comes to lie beyond the registry: the index
    is 2 from the first opening, the third session leaves, the list is
    closed and opened again (the index is kept), and then neither return
    nor Ctrl+O does anything: the list is not closed. *)
Lemma C10_commit_is_ignored_without_active_shell :
  isListOpenProp Sample.openGone = true
  /\ mapSize (shells Sample.openGone) = 2
  /\ snd (run Sample.ctrlB unmounted
            [Render Sample.openThree; Render Sample.openThree;
             Render Sample.closedGone; Render Sample.openGone;
             Render Sample.openGone;
             Keypress (Sample.keyNamed "return");
             Keypress (Sample.ctrlKey "o")])
     = [[ResizePty 3 76 21; SetIsBackgroundShellListOpen true];
        []; []; []; []; []; []]
  /\ local (fst (run Sample.ctrlB unmounted
                   [Render Sample.openThree; Render Sample.openThree;
                    Render Sample.closedGone; Render Sample.openGone;
                    Render Sample.openGone]))
     = Sample.at_index 2
  /\ handleKeypress Sample.ctrlB Sample.openGone (Sample.at_index 2)
       (Sample.keyNamed "return")
     = (Sample.at_index 2, []).
Proof.
  split; [reflexivity|]. split; [reflexivity|]. split; [reflexivity|].
  split; reflexivity.
Qed.

(** C10, amended.  On a commit key (return, enter or Ctrl+O) with the
    list open and the selection index at or beyond the number of
    sessions, the handler never calls [setActiveBackgroundShellPid] and
    leaves the local state as it is.  When the registry holds the active
    pid its only call is [setIsBackgroundShellListOpen(false)]: the list
    closes.  When the registry does not hold the active pid the key is
    ignored: there is no call and the list stays open. *)
Theorem C10_commit_beyond_registry_only_closes
    toggle (p : Props) (st : LocalState) (k : Key) :
  isListOpenProp p = true ->
  mapSize (shells p) <= listSelectionIndex st ->
  name k = "return"%string \/ name k = "enter"%string
    \/ (ctrl k = true /\ name k = "o"%string) ->
  handleKeypress toggle p st k
  = (st, if mapHas (shells p) (activePid p)
         then [SetIsBackgroundShellListOpen false] else [])
  /\ (isFocused p = true ->
      onKeypress toggle p st k
      = (st, if mapHas (shells p) (activePid p)
             then [SetIsBackgroundShellListOpen false] else [])).
Proof.
  intros Hopen Hidx Hkey. rewrite mapHas_mapGet. fold (activeShell p).
  assert (Hc : commitSelection (mapKeys (shells p)) st
               = [SetIsBackgroundShellListOpen false]).
  { unfold commitSelection. rewrite arrayGet_beyond; [reflexivity|].
    now rewrite mapKeys_length. }
  assert (Hh : handleKeypress toggle p st k
               = (st, if match activeShell p with
                         | Some _ => true
                         | None => false
                         end
                      then [SetIsBackgroundShellListOpen false] else [])).
  { unfold handleKeypress.
    destruct (activeShell p) as [sh|]; [|reflexivity]. rewrite Hopen.
    destruct Hkey as [Hn | [Hn | [Hctrl Hn]]]; rewrite Hn; simpl;
      rewrite ?Hctrl; simpl; now rewrite Hc. }
  split; [exact Hh|].
  intros Hf. unfold onKeypress, useKeypress, isActive. rewrite Hf.
  destruct (activeShell p) as [sh|]; simpl.
  - exact Hh.
  - reflexivity.
Qed.

Lemma C10_commit_beyond_registry_only_closes_witness :
  handleKeypress Sample.ctrlB Sample.openTwo (Sample.at_index 2)
    (Sample.ctrlKey "o")
  = (Sample.at_index 2, [SetIsBackgroundShellListOpen false])
  /\ handleKeypress Sample.ctrlB Sample.openGone (Sample.at_index 2)
       (Sample.keyNamed "return")
     = (Sample.at_index 2, []).
Proof.
  split.
  - apply (proj1 (C10_commit_beyond_registry_only_closes Sample.ctrlB
                    Sample.openTwo (Sample.at_index 2) (Sample.ctrlKey "o")
                    eq_refl ltac:(vm_compute; discriminate)
                    (or_intror (or_intror (conj eq_refl eq_refl))))).
  - apply (proj1 (C10_commit_beyond_registry_only_closes Sample.ctrlB
                    Sample.openGone (Sample.at_index 2)
                    (Sample.keyNamed "return")
                    eq_refl ltac:(vm_compute; discriminate)
                    (or_introl eq_refl))).
Defined.

(** *** Navigation *)

Lemma navDown_mod (len prev : Z) :
  0 <= prev < len -> navDown len prev = (prev + 1) mod len.
Proof.
  intros H. unfold navDown. apply Z.rem_mod_nonneg; lia.
Qed.

Lemma navUp_mod (len prev : Z) :
  0 <= prev < len -> navUp len prev = (prev - 1) mod len.
Proof.
  intros H. unfold navUp. rewrite Z.rem_mod_nonneg by lia.
  replace (prev - 1 + len) with (prev - 1 + 1 * len) by lia.
  apply Z_mod_plus_full.
Qed.

Lemma navDown_range (len prev : Z) :
  0 <= prev < len -> 0 <= navDown len prev < len.
Proof.
  intros H. rewrite navDown_mod by exact H. apply Z.mod_pos_bound. lia.
Qed.

Lemma navUp_range (len prev : Z) :
  0 <= prev < len -> 0 <= navUp len prev < len.
Proof.
  intros H. rewrite navUp_mod by exact H. apply Z.mod_pos_bound. lia.
Qed.

Lemma navDown_last (len : Z) : 0 < len -> navDown len (len - 1) = 0.
Proof.
  intros H. unfold navDown. replace (len - 1 + 1) with len by lia.
  apply Z.rem_same. lia.
Qed.

Lemma navUp_first (len : Z) : 0 < len -> navUp len 0 = len - 1.
Proof.
  intros H. unfold navUp. replace (0 - 1 + len) with (len - 1) by lia.
  apply Z.rem_small. lia.
Qed.

(** The handler moves the index only in its two navigation branches. *)
Lemma handleKeypress_index toggle (p : Props) (st : LocalState) (k : Key) :
  let i := listSelectionIndex st in
  let len := mapSize (shells p) in
  let i' := listSelectionIndex (fst (handleKeypress toggle p st k)) in
  i' = i \/ i' = navUp len i \/ i' = navDown len i.
Proof.
  unfold handleKeypress. rewrite mapKeys_length.
  destruct (activeShell p); [|now left].
  repeat match goal with
         | |- context [if ?b then _ else _] => destruct b; simpl; auto
         | |- context [match ?o with Some _ => _ | None => _ end] =>
             destruct o; simpl; auto
         end.
Qed.

(** C7, as stated, fails over a non-empty registry that does not hold
    the active pid: the handler returns at once, so with the list open
    over two sessions [down] at the last index leaves it at 1 and [up]
    at 0 leaves it at 0. *)
Lemma C7_no_navigation_without_active_shell :
  isListOpenProp Sample.openGone = true
  /\ mapSize (shells Sample.openGone) = 2
  /\ mapHas (shells Sample.openGone) (activePid Sample.openGone) = false
  /\ handleKeypress Sample.ctrlB Sample.openGone (Sample.at_index 1)
       (Sample.keyNamed "down")
     = (Sample.at_index 1, [])
  /\ onKeypress Sample.ctrlB Sample.openGone (Sample.at_index 1)
       (Sample.keyNamed "down")
     = (Sample.at_index 1, [])
  /\ handleKeypress Sample.ctrlB Sample.openGone (Sample.at_index 0)
       (Sample.keyNamed "up")
     = (Sample.at_index 0, [])
  /\ Sample.at_index 1 <> Sample.at_index 0.
Proof.
  split; [reflexivity|]. split; [reflexivity|]. split; [reflexivity|].
  split; [reflexivity|]. split; [reflexivity|]. split; [reflexivity|].
  discriminate.
Qed.

(** C7, amended.  With the list open and the selection index within the
    registry, the index is again within the registry after any key.
    When the registry holds the active pid, the handler's [down] is
    [(i + 1) mod n] and its [up] is [(i - 1) mod n], where [n] is the
    number of sessions: down from the last index gives 0 and up from 0
    gives the last index.  Over an empty registry, and over a registry
    that does not hold the active pid, no key does anything, navigation
    and commit included. *)
Theorem C7_navigation_wraps_modulo toggle (p : Props) :
  (forall (st : LocalState) (k : Key),
     isListOpenProp p = true ->
     0 <= listSelectionIndex st < mapSize (shells p) ->
     let n := mapSize (shells p) in
     let i := listSelectionIndex st in
     0 <= listSelectionIndex (fst (handleKeypress toggle p st k)) < n
     /\ forall sh : BackgroundShell,
          activeShell p = Some sh ->
          (name k = "down"%string ->
             handleKeypress toggle p st k
             = (setListSelectionIndex st ((i + 1) mod n), []))
          /\ (name k = "up"%string ->
               handleKeypress toggle p st k
               = (setListSelectionIndex st ((i - 1) mod n), []))
          /\ (name k = "down"%string -> i = n - 1 ->
               listSelectionIndex (fst (handleKeypress toggle p st k)) = 0)
          /\ (name k = "up"%string -> i = 0 ->
               listSelectionIndex (fst (handleKeypress toggle p st k))
               = n - 1))
  /\ (mapSize (shells p) = 0 ->
      forall (st : LocalState) (k : Key),
        handleKeypress toggle p st k = (st, [])
        /\ onKeypress toggle p st k = (st, []))
  /\ (mapHas (shells p) (activePid p) = false ->
      forall (st : LocalState) (k : Key),
        handleKeypress toggle p st k = (st, [])
        /\ onKeypress toggle p st k = (st, [])).
Proof.
  split; [|split].
  3: { intros Hhas st k. rewrite mapHas_mapGet in Hhas.
       fold (activeShell p) in Hhas.
       destruct (activeShell p) eqn:Hact; [discriminate|]. split.
       - now apply handleKeypress_no_active.
       - now apply onKeypress_no_active. }
  - intros st k Hopen Hrange n i. split.
    { destruct (handleKeypress_index toggle p st k) as [H | [H | H]];
        rewrite H; [lia | apply navUp_range | apply navDown_range];
        exact Hrange. }
    intros sh Hact.
    assert (Hdown : name k = "down"%string ->
              handleKeypress toggle p st k
              = (setListSelectionIndex st (navDown n i), [])).
    { intros Hn. unfold handleKeypress.
      rewrite Hact, Hopen, Hn, mapKeys_length. reflexivity. }
    assert (Hup : name k = "up"%string ->
              handleKeypress toggle p st k
              = (setListSelectionIndex st (navUp n i), [])).
    { intros Hn. unfold handleKeypress.
      rewrite Hact, Hopen, Hn, mapKeys_length. reflexivity. }
    split; [|split; [|split]].
    + intros Hn. rewrite (Hdown Hn), navDown_mod; auto.
    + intros Hn. rewrite (Hup Hn), navUp_mod; auto.
    + intros Hn Hi. rewrite (Hdown Hn). simpl. rewrite Hi.
      apply navDown_last. lia.
    + intros Hn Hi. rewrite (Hup Hn). simpl. rewrite Hi.
      apply navUp_first. lia.
  - intros Hempty st k.
    pose proof (mapGet_empty (shells p) (activePid p) Hempty) as Hnone.
    split.
    + now apply handleKeypress_no_active.
    + now apply onKeypress_no_active.
Qed.

Lemma C7_navigation_wraps_modulo_witness :
  handleKeypress Sample.ctrlB Sample.openFive (Sample.at_index 4)
    (Sample.keyNamed "down")
  = (Sample.at_index 0, [])
  /\ handleKeypress Sample.ctrlB Sample.openFive (Sample.at_index 0)
       (Sample.keyNamed "up")
     = (Sample.at_index 4, [])
  /\ handleKeypress Sample.ctrlB Sample.emptyFocused (Sample.at_index 0)
       (Sample.keyNamed "down")
     = (Sample.at_index 0, []).
Proof.
  assert (R : forall i, 0 <= i < 5 ->
            0 <= listSelectionIndex (Sample.at_index i)
              < mapSize (shells Sample.openFive)).
  { intros i Hi. vm_compute. destruct Hi. split; assumption. }
  split; [|split].
  - apply (proj1 (proj2 (proj1 (C7_navigation_wraps_modulo Sample.ctrlB
                                  Sample.openFive)
                           (Sample.at_index 4) (Sample.keyNamed "down")
                           eq_refl (R 4 ltac:(lia)))
                    Sample.vite eq_refl) eq_refl).
  - apply (proj1 (proj2 (proj2 (proj1 (C7_navigation_wraps_modulo
                                         Sample.ctrlB Sample.openFive)
                                  (Sample.at_index 0) (Sample.keyNamed "up")
                                  eq_refl (R 0 ltac:(lia)))
                           Sample.vite eq_refl)) eq_refl).
  - apply (proj1 (proj2 (C7_navigation_wraps_modulo Sample.ctrlB
                           Sample.emptyFocused)) eq_refl).
Defined.

(** *** When the router runs *)

Lemma isActive_withListOpen (p : Props) (b : bool) :
  isActive (withListOpen p b) = isActive p.
Proof. reflexivity. Qed.

Lemma escape_closes_list toggle (p : Props) (st : LocalState) :
  isActive p = true ->
  onKeypress toggle (withListOpen p true) st (mkKey "escape" false None)
  = (st, [SetIsBackgroundShellListOpen false]).
Proof.
  intros H. rewrite onKeypress_active by exact H.
  unfold handleKeypress. unfold isActive in H.
  apply andb_true_iff in H as [_ H].
  change (activeShell (withListOpen p true)) with (activeShell p).
  destruct (activeShell p); [reflexivity | discriminate].
Qed.

(** C3, as stated, fails twice.  A focused panel over a non-empty
    registry that holds the active shell is not inert: a typed key is
    written to the pty.  And a focused panel over a non-empty registry
    that does not hold the active pid is inert, although a session
    exists. *)
Lemma C3_focus_and_sessions_do_not_decide :
  (isFocused Sample.closedOne = true
   /\ 0 < mapSize (shells Sample.closedOne)
   /\ onKeypress Sample.ctrlB Sample.closedOne initialState
        (Sample.keyTyped "a" "a")
      = (initialState, [WriteToPty 1 "a"]))
  /\ (isFocused Sample.strayActive = true
      /\ 0 < mapSize (shells Sample.strayActive)
      /\ forall (b : bool) (st : LocalState) (k : Key),
           onKeypress Sample.ctrlB (withListOpen Sample.strayActive b) st k
           = (st, [])).
Proof.
  split.
  - split; [reflexivity | split; reflexivity].
  - split; [reflexivity | split; [reflexivity|]].
    intros b st k. apply onKeypress_no_active. reflexivity.
Qed.

(** C3, amended.  Some key can make the router act (for some value of
    the picker flag) exactly when the panel holds focus and the active
    pid is a key of the registry.  In every other configuration, a
    focused panel over an empty registry included, every key event
    returns the local state unchanged and issues no call. *)
Theorem C3_router_runs_iff_focused_and_active_shell toggle (p : Props) :
  ((exists (b : bool) (st : LocalState) (k : Key),
       onKeypress toggle (withListOpen p b) st k <> (st, []))
   <-> (isFocused p = true /\ mapHas (shells p) (activePid p) = true))
  /\ (isFocused p = false \/ mapHas (shells p) (activePid p) = false ->
      forall (st : LocalState) (k : Key),
        onKeypress toggle p st k = (st, []))
  /\ (mapSize (shells p) = 0 ->
      forall (st : LocalState) (k : Key),
        onKeypress toggle p st k = (st, [])).
Proof.
  split; [split|split].
  - intros (b & st & k & Hne). apply isActive_spec.
    destruct (isActive p) eqn:Ha; [reflexivity|].
    exfalso. apply Hne. apply onKeypress_inactive.
    now rewrite isActive_withListOpen.
  - intros H. apply isActive_spec in H.
    exists true, initialState, (mkKey "escape" false None).
    rewrite (escape_closes_list toggle p initialState H). discriminate.
  - intros H st k. apply onKeypress_inactive.
    destruct (isActive p) eqn:Ha; [|reflexivity].
    apply isActive_spec in Ha. destruct Ha, H; congruence.
  - intros H st k. apply onKeypress_no_active.
    now apply mapGet_empty.
Qed.

Lemma C3_router_runs_iff_focused_and_active_shell_witness :
  (exists (b : bool) (st : LocalState) (k : Key),
      onKeypress Sample.ctrlB (withListOpen Sample.closedOne b) st k
      <> (st, []))
  /\ (forall (st : LocalState) (k : Key),
        onKeypress Sample.ctrlB Sample.strayActive st k = (st, []))
  /\ (forall (st : LocalState) (k : Key),
        onKeypress Sample.ctrlB Sample.emptyFocused st k = (st, [])).
Proof.
  split; [|split].
  - apply (proj2 (proj1 (C3_router_runs_iff_focused_and_active_shell
                           Sample.ctrlB Sample.closedOne))).
    split; reflexivity.
  - apply (proj1 (proj2 (C3_router_runs_iff_focused_and_active_shell
                           Sample.ctrlB Sample.strayActive))).
    right. reflexivity.
  - apply (proj2 (proj2 (C3_router_runs_iff_focused_and_active_shell
                           Sample.ctrlB Sample.emptyFocused))).
    reflexivity.
Defined.

(** ** Effects *)

Lemma resizeEffect_only_resizes (p : Props) :
  filter isResizeCall (resizeEffect p) = resizeEffect p
  /\ filter isPickerCall (resizeEffect p) = [].
Proof.
  unfold resizeEffect. destruct (negb _); split; reflexivity.
Qed.

Lemma mountEffect_only_picker (p : Props) :
  filter isPickerCall (mountEffect p) = mountEffect p
  /\ filter isResizeCall (mountEffect p) = [].
Proof.
  unfold mountEffect.
  destruct (_ =? 1); [split; reflexivity|].
  destruct (_ >? 1); split; reflexivity.
Qed.

Lemma commit_resize_calls (prev : option Props) (p : Props) (st : LocalState) :
  filter isResizeCall (snd (commit prev p st)) = resizeCalls prev p.
Proof.
  unfold commit. simpl. rewrite filter_app.
  unfold resizeCalls, mountCalls.
  destruct (effectFires resizeDepsSame prev p),
           (effectFires mountDepsSame prev p); simpl;
    rewrite ?(proj1 (resizeEffect_only_resizes p)),
            ?(proj2 (mountEffect_only_picker p)), ?app_nil_r; reflexivity.
Qed.

Lemma commit_picker_calls (prev : option Props) (p : Props) (st : LocalState) :
  filter isPickerCall (snd (commit prev p st)) = mountCalls prev p.
Proof.
  unfold commit. simpl. rewrite filter_app.
  unfold resizeCalls, mountCalls.
  destruct (effectFires resizeDepsSame prev p),
           (effectFires mountDepsSame prev p); simpl;
    rewrite ?(proj2 (resizeEffect_only_resizes p)),
            ?(proj1 (mountEffect_only_picker p)); reflexivity.
Qed.

(** C9, as stated, fails for a change of membership made in place: the
    dependency array holds the [Map] object, so when a session is added
    to the same object and nothing else changes, the effect does not
    run and no [resizePty] is issued, although the active pid is a key
    of the registry. *)
Lemma C9_membership_change_in_place_is_not_seen :
  mapKeys (shells Sample.closedTwoBefore) = [1]
  /\ mapKeys (shells Sample.closedTwo) = [1; 2]
  /\ map_id (shells Sample.closedTwoBefore) = map_id (shells Sample.closedTwo)
  /\ mapHas (shells Sample.closedTwo) (activePid Sample.closedTwo) = true
  /\ snd (commit (Some Sample.closedTwoBefore) Sample.closedTwo initialState)
     = [].
Proof.
  split; [reflexivity|]. split; [reflexivity|]. split; [reflexivity|].
  split; reflexivity.
Qed.

(** C9, amended.  After the first render, and after every render in
    which the active pid, the width, the height or the registry [Map]
    object differs from the previous render, the resize effect runs:
    when the active pid is a key of the registry it issues one call,
    [resizePty(activePid, max(1, width - 4), max(1, height - 3))], and
    when it is not it issues none; these are all the resize calls of
    that render.  A change of membership is such a change when it comes
    as a new [Map] object, and more generally whenever a [Map] object
    shared by two renders has the same entries in both.  When none of
    the four has changed (a change of membership made in place
    included) the render issues no resize. *)
Theorem C9_geometry_sync_resizes_active_pty
    (prev : option Props) (p : Props) (st : LocalState) :
  (match prev with
   | None => True
   | Some q =>
       activePid q <> activePid p \/ width q <> width p
       \/ height q <> height p
       \/ map_id (shells q) <> map_id (shells p)
       \/ (sharedMapUnchanged q p
           /\ mapKeys (shells q) <> mapKeys (shells p))
   end ->
   filter isResizeCall (snd (commit prev p st))
   = if mapHas (shells p) (activePid p)
     then [ResizePty (activePid p) (Z.max 1 (width p - 4))
                     (Z.max 1 (height p - 3))]
     else [])
  /\ (forall q : Props,
        prev = Some q ->
        activePid q = activePid p -> width q = width p ->
        height q = height p ->
        map_id (shells q) = map_id (shells p) ->
        filter isResizeCall (snd (commit prev p st)) = []).
Proof.
  split.
  - intros H. rewrite commit_resize_calls. unfold resizeCalls.
    assert (Hfires : effectFires resizeDepsSame prev p = true).
    { destruct prev as [q|]; [|reflexivity]. simpl.
      apply negb_true_iff. unfold resizeDepsSame, sameMap.
      destruct (Z.eqb_spec (activePid q) (activePid p)); [|reflexivity].
      destruct (Z.eqb_spec (width q) (width p)); [|reflexivity].
      destruct (Z.eqb_spec (height q) (height p)); [|reflexivity].
      destruct (Pos.eqb_spec (map_id (shells q)) (map_id (shells p)));
        [|reflexivity].
      exfalso.
      destruct H as [Hc | [Hc | [Hc | [Hc | [Himm Hc]]]]];
        try contradiction.
      apply Hc. unfold mapKeys. now rewrite Himm. }
    rewrite Hfires. unfold resizeEffect.
    destruct (mapHas (shells p) (activePid p)); [|reflexivity].
    unfold TAB_DISPLAY_HORIZONTAL_PADDING, CONTENT_PADDING_X.
    change (4 / 2) with 2. simpl negb. cbv iota.
    replace (width p - 2 - 1 * 2) with (width p - 4) by lia.
    reflexivity.
  - intros q -> Ha Hw Hh Hm. rewrite commit_resize_calls.
    unfold resizeCalls, effectFires, resizeDepsSame, sameMap.
    now rewrite Ha, Hw, Hh, Hm, !Z.eqb_refl, Pos.eqb_refl.
Qed.

Lemma C9_geometry_sync_resizes_active_pty_witness :
  filter isResizeCall
    (snd (commit (Some Sample.closedOne) Sample.closedTwo initialState))
  = [ResizePty 1 76 21]
  /\ filter isResizeCall
       (snd (commit (Some Sample.closedTwo) Sample.closedGone initialState))
     = []
  /\ filter isResizeCall
       (snd (commit (Some Sample.closedTwoBefore) Sample.closedTwo
               initialState))
     = [].
Proof.
  split; [|split].
  - apply (proj1 (C9_geometry_sync_resizes_active_pty
                    (Some Sample.closedOne) Sample.closedTwo initialState)).
    right. right. right. left. vm_compute. discriminate.
  - apply (proj1 (C9_geometry_sync_resizes_active_pty
                    (Some Sample.closedTwo) Sample.closedGone initialState)).
    left. vm_compute. discriminate.
  - apply (proj2 (C9_geometry_sync_resizes_active_pty
                    (Some Sample.closedTwoBefore) Sample.closedTwo
                    initialState) Sample.closedTwoBefore); reflexivity.
Defined.

(** *** The mount effect *)

Lemma run_cons toggle (c : Component) (e : Event) (es : list Event) :
  run toggle c (e :: es)
  = (fst (run toggle (fst (step toggle c e)) es),
     snd (step toggle c e) :: snd (run toggle (fst (step toggle c e)) es)).
Proof.
  simpl. destruct (step toggle c e) as [c1 calls]. simpl.
  destruct (run toggle c1 es). reflexivity.
Qed.

(** Once rendered, the component stays rendered. *)
Lemma step_mounted toggle (c : Component) (e : Event) (q : Props) :
  rendered c = Some q ->
  exists q', rendered (fst (step toggle c e)) = Some q'.
Proof.
  intros H. destruct e as [p | k]; simpl.
  - destruct (commit (rendered c) p (local c)). simpl. eauto.
  - rewrite H. simpl. eauto.
Qed.

Lemma step_render_picker_calls toggle (c : Component) (p : Props) :
  filter isPickerCall (snd (step toggle c (Render p)))
  = mountCalls (rendered c) p.
Proof.
  rewrite <- (commit_picker_calls (rendered c) p (local c)).
  unfold step. destruct (commit (rendered c) p (local c)). reflexivity.
Qed.

(** A render of a mounted component calls no picker setter. *)
Lemma mounted_render_is_silent toggle (es : list Event) :
  forall (c : Component) (q : Props) (n : nat) (p : Props),
    rendered c = Some q ->
    nth_error es n = Some (Render p) ->
    filter isPickerCall (nth n (snd (run toggle c es)) []) = [].
Proof.
  induction es as [|e es IH]; intros c q n p Hc Hn.
  - destruct n; discriminate Hn.
  - rewrite run_cons. destruct n as [|n]; simpl in Hn |- *.
    + injection Hn as ->. rewrite step_render_picker_calls, Hc. reflexivity.
    + destruct (step_mounted toggle c e q Hc) as [q' Hq'].
      exact (IH _ q' n p Hq' Hn).
Qed.

(** C1, as stated, fails: when the registry grows from one session to
    two the second render only resizes the pty, the picker is not opened;
    and when the registry shrinks back to one session the picker is not
    closed again.  The picker is set once, by the first render. *)
Lemma C1_no_call_at_size_transition :
  mapSize (shells Sample.closedOne) = 1
  /\ 1 < mapSize (shells Sample.closedTwo)
  /\ snd (run Sample.ctrlB unmounted
            [Render Sample.closedOne; Render Sample.closedTwo;
             Render Sample.closedOne])
     = [[ResizePty 1 76 21; SetIsBackgroundShellListOpen false];
        [ResizePty 1 76 21];
        [ResizePty 1 76 21]].
Proof.
  split; [|split]; reflexivity.
Qed.

(** C1, amended.  The picker is reconciled with the size of the registry
    once, by the effect of the first render: it is closed when the
    registry then has exactly one session, opened when it has more than
    one, and left alone when it is empty.  No later render calls the
    picker setter, whatever the registry has become. *)
Theorem C1_picker_reconciled_on_mount_only
    toggle (p0 : Props) (es : list Event) :
  let log := snd (run toggle unmounted (Render p0 :: es)) in
  filter isPickerCall (hd [] log)
  = (if mapSize (shells p0) =? 1 then [SetIsBackgroundShellListOpen false]
     else if 1 <? mapSize (shells p0)
          then [SetIsBackgroundShellListOpen true]
          else [])
  /\ (forall (n : nat) (p : Props),
        nth_error es n = Some (Render p) ->
        filter isPickerCall (nth (S n) log []) = []).
Proof.
  intros log. subst log. rewrite run_cons. split.
  - cbn [hd snd]. rewrite step_render_picker_calls. simpl.
    unfold mountCalls, effectFires, mountEffect.
    rewrite Z.gtb_ltb. reflexivity.
  - intros n p Hn. cbn [nth snd].
    apply (mounted_render_is_silent toggle es _ p0 n p); [|exact Hn].
    simpl. destruct (commit None p0 initialState). reflexivity.
Qed.

Lemma C1_picker_reconciled_on_mount_only_witness :
  filter isPickerCall
    (nth 1 (snd (run Sample.ctrlB unmounted
                   [Render Sample.closedOne; Render Sample.closedTwo])) [])
  = [].
Proof.
  apply (proj2 (C1_picker_reconciled_on_mount_only Sample.ctrlB
                  Sample.closedOne [Render Sample.closedTwo])
           0%nat Sample.closedTwo).
  reflexivity.
Defined.

(** *** The list-sync effect *)

(** [indexOf] is [-1] exactly when the element is absent, and otherwise the
    first position that holds it. *)
Lemma indexOfFrom_spec (x : Z) (l : list Z) :
  forall i : Z,
    (~ In x l /\ indexOfFrom x i l = -1)
    \/ (exists n : nat,
          indexOfFrom x i l = i + Z.of_nat n
          /\ nth_error l n = Some x
          /\ forall j : nat, (j < n)%nat -> nth_error l j <> Some x).
Proof.
  induction l as [|y l IH]; intros i; simpl.
  - left. split; [tauto | reflexivity].
  - destruct (Z.eqb_spec y x) as [-> | Hne].
    + right. exists 0%nat. split; [lia|]. split; [reflexivity|].
      intros j Hj. lia.
    + destruct (IH (i + 1)) as [[Hnin Hm] | (n & Hn & Hnth & Hfirst)].
      * left. split; [|exact Hm]. intros [H | H]; [congruence | tauto].
      * right. exists (S n). split; [lia|]. split; [exact Hnth|].
        intros [|j] Hj; simpl; [congruence | apply Hfirst; lia].
Qed.

Lemma mapGet_key (m : ShellMap) (k : Z) (sh : BackgroundShell) :
  mapGet m k = Some sh -> In k (mapKeys m).
Proof.
  unfold mapGet, mapKeys. induction (entries m) as [|e l IH]; simpl.
  - discriminate.
  - destruct (Z.eqb_spec (fst e) k); [now left | right; auto].
Qed.

Lemma wellKeyed_get (m : ShellMap) (k : Z) (sh : BackgroundShell) :
  wellKeyed m = true -> mapGet m k = Some sh -> pid sh = k.
Proof.
  unfold wellKeyed, mapGet. induction (entries m) as [|e l IH]; simpl.
  - discriminate.
  - intros H. apply andb_true_iff in H as [He Hl].
    destruct (Z.eqb_spec (fst e) k) as [Hk | Hk]; simpl.
    + intros [= <-]. apply Z.eqb_eq in He. congruence.
    + auto.
Qed.

Lemma commit_index (prev : option Props) (p : Props) (st : LocalState) :
  effectFires listSyncDepsSame prev p = true ->
  listSelectionIndex (fst (commit prev p st))
  = listSelectionIndex (listSyncEffect p st).
Proof.
  intros H. unfold commit. simpl. rewrite H.
  unfold listSyncEffect, outputEffect.
  destruct (isListOpenProp p), (effectFires outputDepsSame prev p),
    (activeShell p); simpl; try reflexivity;
    destruct (negb _); reflexivity.
Qed.

Lemma opening_fires_listSync (prev : option Props) (p : Props) :
  match prev with
  | None => True
  | Some q => isListOpenProp q = false
  end ->
  isListOpenProp p = true ->
  effectFires listSyncDepsSame prev p = true.
Proof.
  intros Hprev Hopen. destruct prev as [q|]; [|reflexivity].
  simpl. unfold listSyncDepsSame. rewrite Hprev, Hopen. reflexivity.
Qed.

(** C2, as stated, fails when the active pid is not in the registry: the
    index is then left where it was, which need not be 0.  Here the
    third of three sessions is active when the list is first shown
    (index 2); the session then leaves the registry, and the list is
    closed and opened again: the index is still 2. *)
Lemma C2_index_kept_when_active_missing :
  isListOpenProp Sample.closedGone = false
  /\ isListOpenProp Sample.openGone = true
  /\ mapHas (shells Sample.openGone) (activePid Sample.openGone) = false
  /\ listSelectionIndex
       (local (fst (run Sample.ctrlB unmounted
                      [Render Sample.openThree; Render Sample.closedGone;
                       Render Sample.openGone])))
     = 2.
Proof.
  split; [|split; [|split]]; reflexivity.
Qed.

(** C2, amended.  In the render in which the list goes from closed to
    open (or is open from the first render on), the selection index is
    set to the first position of the active pid in the order of the
    registry when the active pid is a key of the registry (whose entries
    are stored under the pid of their shell); when the active pid is not
    in the registry the index is left unchanged. *)
Theorem C2_opening_syncs_index_to_active
    (prev : option Props) (p : Props) (st : LocalState) :
  match prev with
  | None => True
  | Some q => isListOpenProp q = false
  end ->
  isListOpenProp p = true ->
  let i' := listSelectionIndex (fst (commit prev p st)) in
  (wellKeyed (shells p) = true ->
   mapHas (shells p) (activePid p) = true ->
   0 <= i' < mapSize (shells p)
   /\ nth_error (mapKeys (shells p)) (Z.to_nat i') = Some (activePid p)
   /\ forall j : nat,
        (j < Z.to_nat i')%nat ->
        nth_error (mapKeys (shells p)) j <> Some (activePid p))
  /\ (mapHas (shells p) (activePid p) = false ->
      i' = listSelectionIndex st).
Proof.
  intros Hprev Hopen i'. subst i'.
  rewrite (commit_index prev p st (opening_fires_listSync prev p Hprev Hopen)).
  unfold listSyncEffect. rewrite Hopen, mapHas_mapGet. fold (activeShell p).
  split.
  - intros Hwk Hhas. destruct (activeShell p) as [sh|] eqn:Hact;
      [|discriminate]. clear Hhas.
    rewrite (wellKeyed_get _ _ _ Hwk Hact).
    unfold indexOf.
    destruct (indexOfFrom_spec (activePid p) (mapKeys (shells p)) 0)
      as [[Hnin _] | (n & Hn & Hnth & Hfirst)].
    + exfalso. apply Hnin. exact (mapGet_key _ _ _ Hact).
    + rewrite Hn. simpl Z.add.
      destruct (Z.eqb_spec (Z.of_nat n) (-1)) as [Hbad | _]; [lia|].
      simpl. rewrite Nat2Z.id. split; [|split; assumption].
      rewrite <- mapKeys_length.
      assert (n < List.length (mapKeys (shells p)))%nat
        by (apply nth_error_Some; congruence).
      lia.
  - intros Hhas. destruct (activeShell p); [discriminate | reflexivity].
Qed.

Lemma C2_opening_syncs_index_to_active_witness :
  nth_error (mapKeys (shells Sample.openFive))
    (Z.to_nat (listSelectionIndex
                 (fst (commit (Some Sample.closedTwo) Sample.openFive
                         initialState))))
  = Some (activePid Sample.openFive)
  /\ listSelectionIndex
       (fst (commit (Some Sample.closedGone) Sample.openGone
               (Sample.at_index 2)))
     = listSelectionIndex (Sample.at_index 2).
Proof.
  split.
  - apply (proj1 (C2_opening_syncs_index_to_active
               (Some Sample.closedTwo) Sample.openFive initialState
               eq_refl eq_refl) eq_refl eq_refl).
  - apply (proj2 (C2_opening_syncs_index_to_active
               (Some Sample.closedGone) Sample.openGone (Sample.at_index 2)
               eq_refl eq_refl) eq_refl).
Defined.

(** ** Tab layout *)

Lemma split_nonempty (sep : ascii) (s : string) : split sep s <> [].
Proof.
  destruct s as [|c s]; simpl; [discriminate|].
  destruct (Ascii.eqb c sep); [discriminate|].
  destruct (split sep s); discriminate.
Qed.

Lemma hd_split_space (s : string) :
  hd EmptyString (split " " s) = beforeFirstSpace s.
Proof.
  induction s as [|c s IH]; simpl; [reflexivity|].
  destruct (Ascii.eqb c " "); [reflexivity|].
  destruct (split " " s) as [|w ws] eqn:E.
  - now destruct (split_nonempty " " s).
  - simpl in *. now rewrite IH.
Qed.

Lemma beforeFirstSpace_noSpace (s : string) :
  noSpace (beforeFirstSpace s) = true.
Proof.
  induction s as [|c s IH]; simpl; [reflexivity|].
  destruct (Ascii.eqb c " ") eqn:E; simpl; [reflexivity|].
  now rewrite E, IH.
Qed.

Lemma beforeFirstSpace_prefix (s : string) :
  s = beforeFirstSpace s
  \/ exists rest : string, s = (beforeFirstSpace s ++ " " ++ rest)%string.
Proof.
  induction s as [|c s IH]; simpl; [now left|].
  destruct (Ascii.eqb_spec c " ") as [-> | Hc].
  - right. exists s. reflexivity.
  - destruct IH as [IH | [rest IH]].
    + left. now rewrite <- IH.
    + right. exists rest. simpl. f_equal. exact IH.
Qed.

Lemma takeToken_noWhitespace (s : string) :
  noWhitespace (beforeFirstSpace s) = true ->
  takeToken s = beforeFirstSpace s.
Proof.
  induction s as [|c s IH]; simpl; [reflexivity|].
  destruct (Ascii.eqb_spec c " ") as [-> | Hc]; [reflexivity|].
  simpl. destruct (isWhitespace c); simpl; [discriminate|].
  intros H. now rewrite IH.
Qed.

(** The code's token is the first whitespace-delimited token when the
    command does not start with white space and has no other white
    space before its first space. *)
Lemma beforeFirstSpace_is_first_token (s : string) :
  startsWithWhitespace s = false ->
  noWhitespace (beforeFirstSpace s) = true ->
  beforeFirstSpace s = spec_firstToken s.
Proof.
  destruct s as [|c s]; simpl; [reflexivity|].
  intros Hc. rewrite Hc.
  destruct (Ascii.eqb_spec c " ") as [-> | Hne]; [discriminate Hc|].
  simpl. rewrite Hc. simpl. intros H. now rewrite takeToken_noWhitespace.
Qed.

Lemma labelsWidth_nonneg (l : list BackgroundShell) :
  forall i : nat, 0 <= labelsWidth i l.
Proof.
  induction l as [|sh l IH]; intros i; cbn [labelsWidth]; [lia|].
  specialize (IH (S i)). lia.
Qed.

Lemma sessionTabs_firstn (active : Z) (l : list BackgroundShell) :
  forall (i N : nat),
    sessionTabs active i (firstn N l) = firstn N (sessionTabs active i l).
Proof.
  induction l as [|sh l IH]; intros i [|N]; simpl; try reflexivity.
  now rewrite IH.
Qed.

Lemma sessionTabs_length (active : Z) (l : list BackgroundShell) :
  forall i : nat, List.length (sessionTabs active i l) = List.length l.
Proof.
  induction l as [|sh l IH]; intros i; simpl; [reflexivity|].
  now rewrite IH.
Qed.

Lemma sessionTabs_nth (active : Z) (l : list BackgroundShell) :
  forall (i0 i : nat) (e : TextElem),
    nth_error (sessionTabs active i0 l) i = Some e ->
    exists sh : BackgroundShell,
      nth_error l i = Some sh
      /\ e = tabElem active (tabLabel (i0 + i) sh) sh.
Proof.
  induction l as [|sh l IH]; intros i0 [|i] e; simpl; try discriminate.
  - intros [= <-]. exists sh. now rewrite Nat.add_0_r.
  - intros H. destruct (IH (S i0) i e H) as (sh' & Hn & He).
    exists sh'. split; [exact Hn|].
    now replace (i0 + S i)%nat with (S i0 + i)%nat by lia.
Qed.

Lemma nth_error_firstn_some {A : Type} (l : list A) :
  forall (N i : nat) (x : A),
    nth_error (firstn N l) i = Some x -> nth_error l i = Some x.
Proof.
  induction l as [|y l IH]; intros [|N] [|i] x; simpl; try discriminate; auto.
  apply IH.
Qed.

(** The loop emits the longest prefix of the sessions whose labels fit:
    if the first [N] labels fit after [currentWidth] and one more does
    not, the loop leaves with these [N] tabs appended and with
    [overflow] set exactly when sessions remain. *)
Lemma tabsLoop_fits (active avail : Z) (rest : list BackgroundShell) :
  forall (N i : nat) (tabs : list TextElem) (cw : Z),
    (N <= List.length rest)%nat ->
    ((0 < N)%nat -> cw + labelsWidth i (firstn N rest) <= avail) ->
    ((N < List.length rest)%nat ->
     cw + labelsWidth i (firstn (S N) rest) > avail) ->
    tabsLoop active avail i rest tabs cw
    = (tabs ++ sessionTabs active i (firstn N rest),
       (N <? List.length rest)%nat).
Proof.
  induction rest as [|sh rest IH]; intros N i tabs cw Hle Hfit Hmore.
  - assert (N = 0%nat) as -> by (simpl in Hle; lia).
    simpl. now rewrite app_nil_r.
  - destruct N as [|N].
    + specialize (Hmore ltac:(simpl; lia)).
      change (firstn 1 (sh :: rest)) with [sh] in Hmore.
      cbn [labelsWidth] in Hmore. cbn [tabsLoop firstn sessionTabs].
      destruct (Z.gtb_spec (cw + Z.of_nat (String.length (tabLabel i sh)))
                  avail) as [_ | Hno]; [|lia].
      now rewrite app_nil_r.
    + specialize (Hfit ltac:(lia)).
      change (firstn (S N) (sh :: rest)) with (sh :: firstn N rest) in *.
      cbn [labelsWidth] in Hfit.
      pose proof (labelsWidth_nonneg (firstn N rest) (S i)) as Hpos.
      cbn [tabsLoop].
      destruct (Z.gtb_spec (cw + Z.of_nat (String.length (tabLabel i sh)))
                  avail) as [Hno | _]; [lia|].
      rewrite (IH N (S i)).
      * cbn [sessionTabs]. rewrite <- app_assoc. reflexivity.
      * simpl in Hle. lia.
      * intros _. lia.
      * intros HN. specialize (Hmore ltac:(simpl; lia)).
        change (firstn (S (S N)) (sh :: rest))
          with (sh :: firstn (S N) rest) in Hmore.
        cbn [labelsWidth] in Hmore. lia.
Qed.

(** The loop always stops after some prefix of the sessions. *)
Lemma tabsLoop_prefix (active avail : Z) (rest : list BackgroundShell) :
  forall (i : nat) (tabs : list TextElem) (cw : Z),
  exists N : nat,
    fst (tabsLoop active avail i rest tabs cw)
    = tabs ++ sessionTabs active i (firstn N rest).
Proof.
  induction rest as [|sh rest IH]; intros i tabs cw.
  - exists 0%nat. simpl. now rewrite app_nil_r.
  - cbn [tabsLoop]. destruct (_ >? avail).
    + exists 0%nat. simpl. now rewrite app_nil_r.
    + destruct (IH (S i) (tabs ++ [tabElem active (tabLabel i sh) sh])
                  (cw + Z.of_nat (String.length (tabLabel i sh)))) as [N HN].
      exists (S N). rewrite HN. cbn [firstn sessionTabs].
      now rewrite <- app_assoc.
Qed.

Lemma sessionTabs_nth_some (active : Z) (l : list BackgroundShell) :
  forall (i0 i : nat) (sh : BackgroundShell),
    nth_error l i = Some sh ->
    nth_error (sessionTabs active i0 l) i
    = Some (tabElem active (tabLabel (i0 + i) sh) sh).
Proof.
  induction l as [|a l IH]; intros i0 [|i] sh; simpl; try discriminate.
  - intros [= <-]. now rewrite Nat.add_0_r.
  - intros H. rewrite (IH (S i0) i sh H).
    now replace (i0 + S i)%nat with (S i0 + i)%nat by lia.
Qed.

Lemma nth_error_firstn_lt {A : Type} (l : list A) :
  forall (N i : nat), (i < N)%nat -> nth_error (firstn N l) i = nth_error l i.
Proof.
  induction l as [|y l IH]; intros [|N] [|i] H; simpl; try reflexivity;
    try lia.
  apply IH. lia.
Qed.

(** C6.  If the first [N] labels fit into the label budget and the
    label of the next session, when there is one, does not, the loop
    leaves with the tabs of exactly the first [N] sessions, in the order
    of the registry, and with [overflow] set iff there are more than [N]
    sessions; [renderTabs] appends the [" ... (Ctrl+O) "] element iff
    [overflow] is set.  The text of the tab at position [i] is the label
    [" <i+1>: <command up to its first space> "] of the session at
    position [i] (followed by ["(Exited)"] for an exited shell), and the
    appended element is the yellow, bold text [" ... (Ctrl+O) "] under
    the key ["overflow"].  When all labels fit, [overflow] is false and
    the tabs of all sessions are returned, in the order of the
    registry. *)
Theorem C6_layout_emits_longest_fitting_prefix (p : Props) (N : nat) :
  let sessions := mapValues (shells p) in
  let all := sessionTabs (activePid p) 0 sessions in
  (N <= List.length sessions)%nat ->
  ((0 < N)%nat -> prefixWidth N sessions <= availableWidth p) ->
  ((N < List.length sessions)%nat ->
   availableWidth p < prefixWidth (S N) sessions) ->
  layout p = (firstn N all, (N <? List.length sessions)%nat)
  /\ List.length (fst (layout p)) = N
  /\ renderTabs p
     = firstn N all
       ++ (if (N <? List.length sessions)%nat then [overflowElem] else [])
  /\ (N = List.length sessions ->
      layout p = (all, false) /\ renderTabs p = all)
  /\ (forall (i : nat) (sh : BackgroundShell),
        (i < N)%nat ->
        nth_error sessions i = Some sh ->
        nth_error (map text (renderTabs p)) i
        = Some ((" " ++ numToString (i + 1) ++ ": "
                     ++ beforeFirstSpace (command sh) ++ " ")
                ++ (if statusEqb (status sh) exited
                    then "(Exited)" else ""))%string)
  /\ ((N < List.length sessions)%nat ->
      nth_error (renderTabs p) N
      = Some (mkText (KeyStr "overflow") yellow None true " ... (Ctrl+O) "))
  /\ List.length (renderTabs p)
     = (N + if (N <? List.length sessions)%nat then 1 else 0)%nat.
Proof.
  intros sessions all Hle Hfit Hmore.
  assert (Hlayout : layout p
                    = (firstn N all, (N <? List.length sessions)%nat)).
  { unfold layout. fold sessions.
    rewrite (tabsLoop_fits (activePid p) (availableWidth p) sessions N 0 [] 0).
    - simpl. now rewrite sessionTabs_firstn.
    - exact Hle.
    - intros H. specialize (Hfit H). unfold prefixWidth in Hfit. lia.
    - intros H. specialize (Hmore H). unfold prefixWidth in Hmore. lia. }
  assert (Hrender : renderTabs p
                    = firstn N all
                      ++ (if (N <? List.length sessions)%nat
                          then [overflowElem] else [])).
  { unfold renderTabs. rewrite Hlayout.
    destruct (N <? List.length sessions)%nat;
      [reflexivity | now rewrite app_nil_r]. }
  assert (HlenN : List.length (firstn N all) = N).
  { rewrite length_firstn. unfold all. rewrite sessionTabs_length. lia. }
  split; [exact Hlayout|]. split; [|split; [exact Hrender|]].
  - rewrite Hlayout. exact HlenN.
  - split; [|split; [|split]].
    + intros HN.
      assert (Hall : firstn N all = all).
      { apply firstn_all2. unfold all. rewrite sessionTabs_length. lia. }
      rewrite Hrender, Hlayout, Hall, HN, Nat.ltb_irrefl.
      now rewrite app_nil_r.
    + intros i sh Hi Hsh. rewrite Hrender, nth_error_map.
      rewrite nth_error_app1 by (rewrite HlenN; exact Hi).
      rewrite nth_error_firstn_lt by exact Hi. unfold all.
      rewrite (sessionTabs_nth_some _ _ 0 i sh Hsh). cbn [option_map Nat.add].
      unfold tabElem, tabLabel. cbn [text]. now rewrite hd_split_space.
    + intros HN. rewrite Hrender.
      rewrite nth_error_app2 by (rewrite HlenN; lia).
      rewrite HlenN, Nat.sub_diag.
      apply Nat.ltb_lt in HN. rewrite HN. reflexivity.
    + rewrite Hrender, length_app, HlenN.
      destruct (N <? List.length sessions)%nat; reflexivity.
Qed.

Lemma C6_layout_emits_longest_fitting_prefix_witness :
  renderTabs Sample.narrowFive
  = firstn 2 (sessionTabs 3 0 (mapValues Sample.five)) ++ [overflowElem]
  /\ layout Sample.wideFive
     = (sessionTabs 3 0 (mapValues Sample.five), false)
  /\ nth_error (map text (renderTabs Sample.narrowFive)) 1
     = Some " 2: tsc "%string
  /\ nth_error (renderTabs Sample.narrowFive) 2
     = Some (mkText (KeyStr "overflow") yellow None true " ... (Ctrl+O) ").
Proof.
  assert (F1 : (2 <= List.length (mapValues (shells Sample.narrowFive)))%nat)
    by (vm_compute; lia).
  assert (F2 : (0 < 2)%nat ->
               prefixWidth 2 (mapValues (shells Sample.narrowFive))
               <= availableWidth Sample.narrowFive)
    by (intros _; vm_compute; intros H; discriminate H).
  assert (F3 : (2 < List.length (mapValues (shells Sample.narrowFive)))%nat ->
               availableWidth Sample.narrowFive
               < prefixWidth 3 (mapValues (shells Sample.narrowFive)))
    by (intros _; vm_compute; reflexivity).
  pose proof (C6_layout_emits_longest_fitting_prefix Sample.narrowFive 2
                F1 F2 F3) as (_ & _ & Hr & _ & Ht & Ho & _).
  split; [exact Hr|]. split; [|split].
  - apply (C6_layout_emits_longest_fitting_prefix Sample.wideFive 5).
    + vm_compute. lia.
    + intros _. vm_compute. intros H. discriminate H.
    + intros H. vm_compute in H. lia.
    + reflexivity.
  - apply (Ht 1%nat Sample.tsc); [lia | reflexivity].
  - apply Ho. vm_compute. lia.
Defined.

(** C5, as stated, fails: the label holds the command up to its first
    space, which is not the first whitespace-delimited token when a tab
    comes first or when the command starts with a space. *)
Lemma C5_label_is_cut_at_first_space_only :
  map text (renderTabs Sample.oddCommands)
  = [(" 1: make" ++ Sample.TAB ++ "all ")%string; " 2:  "%string]
  /\ [spec_tabLabel 0 Sample.tabbed; spec_tabLabel 1 Sample.padded]
     = [" 1: make "%string; " 2: npm "%string]
  /\ map text (renderTabs Sample.oddCommands)
     <> [spec_tabLabel 0 Sample.tabbed; spec_tabLabel 1 Sample.padded].
Proof.
  split; [reflexivity|]. split; [reflexivity|]. discriminate.
Qed.

(** C5, amended.  The text of the i-th tab emitted by the loop (from 0)
    is [" <i+1>: <tok> "], followed by ["(Exited)"] for an exited shell,
    where the shell is the i-th of the registry and [tok] is its command
    up to, and without, its first space character: [tok] holds no space,
    and the command is [tok] or [tok], a space and a rest.  [tok] is the
    first whitespace-delimited token of the command when the command
    does not start with white space and [tok] holds none.  For the
    registry of the one running shell 1 with command ["npm run build"],
    active pid 1 and width 80, the loop returns the one tab [" 1: npm "]
    without overflow. *)
Theorem C5_tab_label_is_position_and_first_field :
  (forall (p : Props) (i : nat) (e : TextElem),
     nth_error (fst (layout p)) i = Some e ->
     exists (sh : BackgroundShell) (tok : string),
       nth_error (mapValues (shells p)) i = Some sh
       /\ text e
          = ((" " ++ numToString (i + 1) ++ ": " ++ tok ++ " ")
             ++ (if statusEqb (status sh) exited then "(Exited)" else ""))%string
       /\ noSpace tok = true
       /\ (command sh = tok
           \/ exists rest : string,
                command sh = (tok ++ " " ++ rest)%string)
       /\ (startsWithWhitespace (command sh) = false ->
           noWhitespace tok = true ->
           tok = spec_firstToken (command sh)))
  /\ layout Sample.closedOne
     = ([mkText (KeyPid 1) white (Some blue) true " 1: npm "], false)
  /\ map text (renderTabs Sample.closedOne) = [" 1: npm "%string].
Proof.
  split; [|split; reflexivity].
  intros p i e He. unfold layout in He.
  destruct (tabsLoop_prefix (activePid p) (availableWidth p)
              (mapValues (shells p)) 0 [] 0) as [N HN].
  rewrite HN in He. simpl app in He.
  destruct (sessionTabs_nth _ _ _ _ _ He) as (sh & Hsh & ->).
  apply nth_error_firstn_some in Hsh.
  exists sh, (beforeFirstSpace (command sh)).
  split; [exact Hsh|]. split; [|split; [|split]].
  - unfold tabElem, tabLabel. cbn [text]. now rewrite hd_split_space.
  - apply beforeFirstSpace_noSpace.
  - apply beforeFirstSpace_prefix.
  - apply beforeFirstSpace_is_first_token.
Qed.

Lemma C5_tab_label_is_position_and_first_field_witness :
  exists (sh : BackgroundShell) (tok : string),
    nth_error (mapValues (shells Sample.narrowFive)) 1 = Some sh
    /\ text (tabElem 3 (tabLabel 1 Sample.tsc) Sample.tsc)
       = ((" " ++ numToString (1 + 1) ++ ": " ++ tok ++ " ")
          ++ (if statusEqb (status sh) exited then "(Exited)" else ""))%string
    /\ noSpace tok = true
    /\ (command sh = tok
        \/ exists rest : string, command sh = (tok ++ " " ++ rest)%string)
    /\ (startsWithWhitespace (command sh) = false ->
        noWhitespace tok = true ->
        tok = spec_firstToken (command sh)).
Proof.
  apply (proj1 C5_tab_label_is_position_and_first_field Sample.narrowFive 1%nat).
  reflexivity.
Defined.

(** * Further properties *)

(** ** What the handler can do *)

Lemma commitSelection_calls (keys : list Z) (st : LocalState) (c : Call) :
  In c (commitSelection keys st) ->
  c = SetIsBackgroundShellListOpen false
  \/ exists q : Z,
       c = SetActiveBackgroundShellPid q /\ In q keys /\ q <> 0.
Proof.
  unfold commitSelection. intros H. apply in_app_or in H as [H | H].
  - destruct (arrayGet keys (listSelectionIndex st)) as [q|] eqn:Hq;
      simpl in H; [|contradiction].
    destruct (Z.eqb_spec q 0) as [Hz | Hz]; simpl in H; [contradiction|].
    destruct H as [<- | []]. right. exists q. split; [reflexivity|].
    split; [|exact Hz]. unfold arrayGet in Hq.
    destruct (listSelectionIndex st <? 0); [discriminate|].
    exact (nth_error_In _ _ Hq).
  - destruct H as [<- | []]. now left.
Qed.

Ltac handler_cases :=
  repeat match goal with
         | |- context [if ?b then _ else _] => destruct b eqn:?
         | |- context [match sequence ?k with Some _ => _ | None => _ end] =>
             destruct (sequence k) eqn:?
         end.

(** X1.  Whatever the key, the handler leaves the stored output alone
    and never resizes a pty.  It writes and dismisses only with the list
    closed, and only for the pid of the active shell; it activates a
    pid only with the list open, and only a non-zero key of the registry;
    and its picker call always flips the flag: it closes an open list
    and opens a closed one. *)
Theorem X1_handler_calls_are_bounded
    toggle (p : Props) (st : LocalState) (k : Key) :
  outputState (fst (handleKeypress toggle p st k)) = outputState st
  /\ forall c : Call,
       In c (snd (handleKeypress toggle p st k)) ->
       match c with
       | ResizePty _ _ _ => False
       | WriteToPty q _ | DismissBackgroundShell q =>
           isListOpenProp p = false
           /\ option_map pid (activeShell p) = Some q
       | SetActiveBackgroundShellPid q =>
           isListOpenProp p = true /\ In q (mapKeys (shells p)) /\ q <> 0
       | SetIsBackgroundShellListOpen b => b = negb (isListOpenProp p)
       end.
Proof.
  unfold handleKeypress.
  destruct (activeShell p) as [sh|]; [|split; [reflexivity | intros c []]].
  destruct (isListOpenProp p) eqn:Hopen.
  - handler_cases; (split; [reflexivity|]); intros c Hc; simpl in Hc;
      try contradiction;
      try (destruct Hc as [<- | []]; reflexivity);
      apply commitSelection_calls in Hc as [-> | (q & -> & Hq & Hz)];
      auto.
  - handler_cases; (split; [reflexivity|]); intros c Hc; simpl in Hc;
      try contradiction; destruct Hc as [<- | []]; auto.
Qed.

Lemma X1_handler_calls_are_bounded_witness :
  isListOpenProp Sample.closedOne = false
  /\ option_map pid (activeShell Sample.closedOne) = Some 1.
Proof.
  apply (proj2 (X1_handler_calls_are_bounded Sample.ctrlB Sample.closedOne
                  initialState (Sample.keyTyped "a" "a"))
           (WriteToPty 1 "a")).
  left. reflexivity.
Defined.

(** X2.  No key changes the stored output.  With the list closed no
    key changes the local state at all.  With the list open a key
    changes at most the selection index, and only the keys named [up]
    and [down] do. *)
Theorem X2_only_navigation_moves_the_index
    toggle (p : Props) (st : LocalState) (k : Key) :
  outputState (fst (handleKeypress toggle p st k)) = outputState st
  /\ (isListOpenProp p = false -> fst (handleKeypress toggle p st k) = st)
  /\ (listSelectionIndex (fst (handleKeypress toggle p st k))
      <> listSelectionIndex st ->
      isListOpenProp p = true
      /\ (name k = "up"%string \/ name k = "down"%string)).
Proof.
  split.
  { unfold handleKeypress. destruct (activeShell p); [|reflexivity].
    destruct (isListOpenProp p); handler_cases; reflexivity. }
  unfold handleKeypress. destruct (activeShell p) as [sh|].
  - destruct (isListOpenProp p).
    + split; [discriminate|].
      destruct (String.eqb_spec (name k) "up"); [auto|].
      destruct (String.eqb_spec (name k) "down"); [auto|].
      handler_cases; simpl; intros H; now destruct H.
    + split; [|handler_cases; simpl; intros H; now destruct H].
      intros _. handler_cases; reflexivity.
  - split; [reflexivity | simpl; intros H; now destruct H].
Qed.

Lemma X2_only_navigation_moves_the_index_witness :
  fst (handleKeypress Sample.ctrlB Sample.closedOne (Sample.at_index 3)
         (Sample.keyNamed "up"))
  = Sample.at_index 3.
Proof.
  apply (proj1 (proj2 (X2_only_navigation_moves_the_index Sample.ctrlB
                         Sample.closedOne (Sample.at_index 3)
                         (Sample.keyNamed "up")))).
  reflexivity.
Defined.

(** X3.  On a commit key (return, enter or Ctrl+O) with the list open
    and an index that holds a pid of the registry: when the registry
    holds the active pid, the handler activates the pid at the index and
    then closes the list, or only closes the list when that pid is 0;
    when the registry does not hold the active pid, the key is ignored
    and there is no call. *)
Theorem X3_commit_activates_highlighted_pid
    toggle (p : Props) (st : LocalState) (k : Key) (q : Z) :
  isListOpenProp p = true ->
  0 <= listSelectionIndex st ->
  nth_error (mapKeys (shells p)) (Z.to_nat (listSelectionIndex st)) = Some q ->
  name k = "return"%string \/ name k = "enter"%string
    \/ (ctrl k = true /\ name k = "o"%string) ->
  handleKeypress toggle p st k
  = (st, if mapHas (shells p) (activePid p)
         then if q =? 0 then [SetIsBackgroundShellListOpen false]
              else [SetActiveBackgroundShellPid q;
                    SetIsBackgroundShellListOpen false]
         else []).
Proof.
  intros Hopen Hpos Hq Hkey. rewrite mapHas_mapGet. fold (activeShell p).
  assert (Hc : commitSelection (mapKeys (shells p)) st
               = if q =? 0 then [SetIsBackgroundShellListOpen false]
                 else [SetActiveBackgroundShellPid q;
                       SetIsBackgroundShellListOpen false]).
  { unfold commitSelection, arrayGet.
    destruct (Z.ltb_spec (listSelectionIndex st) 0); [lia|].
    rewrite Hq. simpl. destruct (q =? 0); reflexivity. }
  unfold handleKeypress. destruct (activeShell p) as [sh|]; [|reflexivity].
  rewrite Hopen.
  destruct Hkey as [Hn | [Hn | [Hctrl Hn]]]; rewrite Hn; simpl;
    rewrite ?Hctrl; simpl; now rewrite Hc.
Qed.

Lemma X3_commit_activates_highlighted_pid_witness :
  handleKeypress Sample.ctrlB Sample.openFive (Sample.at_index 3)
    (Sample.keyNamed "enter")
  = (Sample.at_index 3,
     [SetActiveBackgroundShellPid 4; SetIsBackgroundShellListOpen false])
  /\ handleKeypress Sample.ctrlB Sample.openGone (Sample.at_index 1)
       (Sample.keyNamed "enter")
     = (Sample.at_index 1, []).
Proof.
  split.
  - apply (X3_commit_activates_highlighted_pid Sample.ctrlB Sample.openFive
             (Sample.at_index 3) (Sample.keyNamed "enter") 4).
    + reflexivity.
    + vm_compute. discriminate.
    + reflexivity.
    + right. left. reflexivity.
  - apply (X3_commit_activates_highlighted_pid Sample.ctrlB Sample.openGone
             (Sample.at_index 1) (Sample.keyNamed "enter") 2).
    + reflexivity.
    + vm_compute. discriminate.
    + reflexivity.
    + right. left. reflexivity.
Defined.

(** ** Navigation composes *)

Lemma navUp_navDown (len i : Z) :
  0 <= i < len -> navUp len (navDown len i) = i.
Proof.
  intros H. rewrite navUp_mod by (apply navDown_range; exact H).
  rewrite navDown_mod by exact H. rewrite Zminus_mod_idemp_l.
  replace (i + 1 - 1) with i by lia. apply Z.mod_small. exact H.
Qed.

Lemma navDown_navUp (len i : Z) :
  0 <= i < len -> navDown len (navUp len i) = i.
Proof.
  intros H. rewrite navDown_mod by (apply navUp_range; exact H).
  rewrite navUp_mod by exact H. rewrite Zplus_mod_idemp_l.
  replace (i - 1 + 1) with i by lia. apply Z.mod_small. exact H.
Qed.

Lemma handleKeypress_down toggle (p : Props) (st : LocalState)
    (sh : BackgroundShell) :
  activeShell p = Some sh -> isListOpenProp p = true ->
  handleKeypress toggle p st (mkKey "down" false None)
  = (setListSelectionIndex st
       (navDown (mapSize (shells p)) (listSelectionIndex st)), []).
Proof.
  intros Hact Hopen. unfold handleKeypress.
  rewrite Hact, Hopen, mapKeys_length. reflexivity.
Qed.

Lemma handleKeypress_up toggle (p : Props) (st : LocalState)
    (sh : BackgroundShell) :
  activeShell p = Some sh -> isListOpenProp p = true ->
  handleKeypress toggle p st (mkKey "up" false None)
  = (setListSelectionIndex st
       (navUp (mapSize (shells p)) (listSelectionIndex st)), []).
Proof.
  intros Hact Hopen. unfold handleKeypress.
  rewrite Hact, Hopen, mapKeys_length. reflexivity.
Qed.

(** X4.  With the list open, an active shell and the index within the
    registry, [down] followed by [up], and [up] followed by [down],
    bring the local state back to what it was. *)
Theorem X4_up_and_down_cancel
    toggle (p : Props) (st : LocalState) (sh : BackgroundShell) :
  activeShell p = Some sh ->
  isListOpenProp p = true ->
  0 <= listSelectionIndex st < mapSize (shells p) ->
  afterKeys toggle p st [mkKey "down" false None; mkKey "up" false None] = st
  /\ afterKeys toggle p st [mkKey "up" false None; mkKey "down" false None]
     = st.
Proof.
  intros Hact Hopen Hrange. unfold afterKeys. cbn [fold_left]. split.
  - rewrite (handleKeypress_down toggle p st sh Hact Hopen). cbn [fst].
    rewrite (handleKeypress_up toggle p _ sh Hact Hopen).
    destruct st as [o i]. unfold setListSelectionIndex. cbn in *.
    now rewrite navUp_navDown.
  - rewrite (handleKeypress_up toggle p st sh Hact Hopen). cbn [fst].
    rewrite (handleKeypress_down toggle p _ sh Hact Hopen).
    destruct st as [o i]. unfold setListSelectionIndex. cbn in *.
    now rewrite navDown_navUp.
Qed.

Lemma X4_up_and_down_cancel_witness :
  afterKeys Sample.ctrlB Sample.openFive (Sample.at_index 4)
    [mkKey "down" false None; mkKey "up" false None]
  = Sample.at_index 4
  /\ afterKeys Sample.ctrlB Sample.openFive (Sample.at_index 4)
       [mkKey "up" false None; mkKey "down" false None]
     = Sample.at_index 4.
Proof.
  apply (X4_up_and_down_cancel Sample.ctrlB Sample.openFive
           (Sample.at_index 4) Sample.vite); try reflexivity.
  vm_compute. split; [discriminate | reflexivity].
Defined.

(** X5.  With the list open, an active shell and the index within the
    registry, [m] presses of [down] move the index to [(i + m) mod n];
    as many presses as there are sessions bring it back to where it
    started. *)
Theorem X5_repeated_down_cycles
    toggle (p : Props) (sh : BackgroundShell) (m : nat) (st : LocalState) :
  activeShell p = Some sh ->
  isListOpenProp p = true ->
  0 <= listSelectionIndex st < mapSize (shells p) ->
  let n := mapSize (shells p) in
  listSelectionIndex
    (afterKeys toggle p st (repeat (mkKey "down" false None) m))
  = (listSelectionIndex st + Z.of_nat m) mod n
  /\ afterKeys toggle p st
       (repeat (mkKey "down" false None) (Z.to_nat n))
     = st.
Proof.
  intros Hact Hopen Hrange n.
  assert (Hgen : forall (j : nat) (s : LocalState),
            0 <= listSelectionIndex s < n ->
            afterKeys toggle p s (repeat (mkKey "down" false None) j)
            = setListSelectionIndex s
                ((listSelectionIndex s + Z.of_nat j) mod n)).
  { induction j as [|j IH]; intros s Hs.
    - simpl. rewrite Z.add_0_r, Z.mod_small by exact Hs.
      now destruct s.
    - unfold afterKeys in *. cbn [repeat fold_left].
      rewrite (handleKeypress_down toggle _ _ sh Hact Hopen). cbn [fst].
      rewrite IH.
      + unfold setListSelectionIndex. cbn. f_equal.
        rewrite navDown_mod by exact Hs. fold n.
        rewrite Zplus_mod_idemp_l. f_equal. lia.
      + cbn. apply navDown_range. exact Hs. }
  split.
  - rewrite Hgen by exact Hrange. reflexivity.
  - rewrite Hgen by exact Hrange. rewrite Z2Nat.id by (unfold n; lia).
    replace (listSelectionIndex st + n)
      with (listSelectionIndex st + 1 * n) by lia.
    rewrite Z_mod_plus_full, Z.mod_small by exact Hrange.
    now destruct st.
Qed.

Lemma X5_repeated_down_cycles_witness :
  listSelectionIndex
    (afterKeys Sample.ctrlB Sample.openFive (Sample.at_index 3)
       (repeat (mkKey "down" false None) 4))
  = (listSelectionIndex (Sample.at_index 3) + Z.of_nat 4)
      mod mapSize (shells Sample.openFive)
  /\ afterKeys Sample.ctrlB Sample.openFive (Sample.at_index 3)
       (repeat (mkKey "down" false None)
          (Z.to_nat (mapSize (shells Sample.openFive))))
     = Sample.at_index 3.
Proof.
  apply (X5_repeated_down_cycles Sample.ctrlB Sample.openFive Sample.vite
           4 (Sample.at_index 3)); try reflexivity.
  vm_compute. split; [discriminate | reflexivity].
Defined.

(** ** The selection index over the life of the component *)

Lemma indexOf_nonneg (x : Z) (l : list Z) :
  indexOf x l = -1 \/ 0 <= indexOf x l < Z.of_nat (List.length l).
Proof.
  unfold indexOf.
  destruct (indexOfFrom_spec x l 0) as [[_ H] | (n & Hn & Hnth & _)].
  - now left.
  - right. rewrite Hn.
    assert (n < List.length l)%nat by (apply nth_error_Some; congruence).
    lia.
Qed.

Lemma navDown_heals (len i : Z) :
  0 < len -> 0 <= i -> 0 <= navDown len i < len.
Proof.
  intros Hlen Hi. unfold navDown. apply Z.rem_bound_pos; lia.
Qed.

Lemma navUp_heals (len i : Z) :
  0 < len -> 0 <= i -> 0 <= navUp len i < len.
Proof.
  intros Hlen Hi. unfold navUp. apply Z.rem_bound_pos; lia.
Qed.

(** The handler applies an updater only over a non-empty registry. *)
Lemma handleKeypress_index_cases
    toggle (p : Props) (st : LocalState) (k : Key) :
  let i := listSelectionIndex st in
  let len := mapSize (shells p) in
  let i' := listSelectionIndex (fst (handleKeypress toggle p st k)) in
  i' = i \/ (0 < len /\ (i' = navUp len i \/ i' = navDown len i)).
Proof.
  unfold handleKeypress. rewrite mapKeys_length.
  destruct (activeShell p) as [sh|] eqn:Hact; [|now left].
  pose proof (mapGet_size _ _ _ Hact) as Hlen.
  destruct (isListOpenProp p); [|left; handler_cases; reflexivity].
  handler_cases; simpl; auto.
Qed.

Lemma commit_index_cases (prev : option Props) (p : Props) (st : LocalState) :
  let i' := listSelectionIndex (fst (commit prev p st)) in
  i' = listSelectionIndex st \/ 0 <= i' < mapSize (shells p).
Proof.
  unfold commit. cbn [fst].
  assert (Ho : forall s, listSelectionIndex
                 (if effectFires outputDepsSame prev p
                  then outputEffect p s else s) = listSelectionIndex s).
  { intros s. destruct (effectFires outputDepsSame prev p); [|reflexivity].
    unfold outputEffect. destruct (activeShell p); reflexivity. }
  destruct (effectFires listSyncDepsSame prev p); [|left; apply Ho].
  unfold listSyncEffect.
  destruct (isListOpenProp p); [|left; apply Ho].
  destruct (activeShell p) as [sh|]; [|left; apply Ho].
  destruct (indexOf_nonneg (pid sh) (mapKeys (shells p))) as [H | H].
  - rewrite H. simpl. left. apply Ho.
  - destruct (Z.eqb_spec (indexOf (pid sh) (mapKeys (shells p))) (-1));
      [lia|]. simpl. right. now rewrite <- mapKeys_length.
Qed.

(** X6.  Whatever events the component has seen since it was created,
    its selection index is not negative.  And from any index that is
    not negative, also one that lies beyond a registry that has shrunk,
    one [up] or [down] handled by the open list lands within the
    registry. *)
Theorem X6_selection_index_never_negative toggle :
  (forall es : list Event,
     0 <= listSelectionIndex (local (fst (run toggle unmounted es))))
  /\ (forall (p : Props) (st : LocalState) (k : Key) (sh : BackgroundShell),
        activeShell p = Some sh ->
        isListOpenProp p = true ->
        0 <= listSelectionIndex st ->
        name k = "up"%string \/ name k = "down"%string ->
        0 <= listSelectionIndex (fst (handleKeypress toggle p st k))
          < mapSize (shells p)).
Proof.
  split.
  - assert (Hstep : forall (c : Component) (e : Event),
              0 <= listSelectionIndex (local c) ->
              0 <= listSelectionIndex (local (fst (step toggle c e)))).
    { intros c e Hc. destruct e as [p | k]; unfold step.
      - pose proof (commit_index_cases (rendered c) p (local c)) as H.
        destruct (commit (rendered c) p (local c)) as [s calls].
        cbn in *. lia.
      - destruct (rendered c) as [p|] eqn:Hr; [|exact Hc].
        cbn [fst local]. unfold onKeypress, useKeypress.
        destruct (isActive p); [|exact Hc].
        pose proof (handleKeypress_index_cases toggle p (local c) k) as H.
        destruct (handleKeypress toggle p (local c) k) as [s calls].
        cbn in *.
        destruct H as [H | [Hlen [H | H]]]; rewrite H;
          [exact Hc | apply navUp_heals | apply navDown_heals]; assumption. }
    assert (Hrun : forall (es : list Event) (c : Component),
              0 <= listSelectionIndex (local c) ->
              0 <= listSelectionIndex (local (fst (run toggle c es)))).
    { induction es as [|e es IH]; intros c Hc; [exact Hc|].
      rewrite run_cons. cbn [fst]. apply IH, Hstep, Hc. }
    intros es. apply Hrun. simpl. lia.
  - intros p st k sh Hact Hopen Hi Hk.
    pose proof (mapGet_size _ _ _ Hact) as Hlen.
    unfold handleKeypress. rewrite Hact, Hopen, mapKeys_length.
    destruct Hk as [Hk | Hk]; rewrite Hk; simpl;
      [apply navUp_heals | apply navDown_heals]; assumption.
Qed.

Lemma X6_selection_index_never_negative_witness :
  0 <= listSelectionIndex
         (fst (handleKeypress Sample.ctrlB Sample.openTwo (Sample.at_index 7)
                 (Sample.keyNamed "down")))
    < mapSize (shells Sample.openTwo).
Proof.
  apply (proj2 (X6_selection_index_never_negative Sample.ctrlB)
           Sample.openTwo (Sample.at_index 7) (Sample.keyNamed "down")
           Sample.npm).
  - reflexivity.
  - reflexivity.
  - vm_compute. discriminate.
  - right. reflexivity.
Defined.

(** ** What a render can do *)

Lemma sameShell_refl (o : option BackgroundShell) : sameShell o o = true.
Proof. destruct o; simpl; [apply Pos.eqb_refl | reflexivity]. Qed.

Lemma sameOutput_refl (o : option Output) : sameOutput o o = true.
Proof.
  destruct o as [[s | i g]|]; simpl;
    [apply String.eqb_refl | apply Pos.eqb_refl | reflexivity].
Qed.

(** X7.  A render with the props of the previous render (as after a
    change of local state only) runs no effect: it issues no call and
    leaves the local state as it is.  So does any later render of that
    kind in the life of the component. *)
Theorem X7_rerender_with_same_props_is_silent
    toggle (p : Props) (st : LocalState) :
  commit (Some p) p st = (st, [])
  /\ (forall seen : LocalState,
        step toggle (mkComponent (Some p) st seen) (Render p)
        = (mkComponent (Some p) st st, [])).
Proof.
  assert (H : commit (Some p) p st = (st, [])).
  { unfold commit, resizeCalls, mountCalls, effectFires.
    unfold resizeDepsSame, outputDepsSame, listSyncDepsSame, mountDepsSame,
      sameMap.
    rewrite !Z.eqb_refl, !Pos.eqb_refl, !sameShell_refl, sameOutput_refl,
      Bool.eqb_reflx.
    reflexivity. }
  split; [exact H|]. intros seen. unfold step. cbn [rendered local].
  now rewrite H.
Qed.

(** X8.  The calls of a render are at most one [resizePty] followed by
    at most one picker call.  The resize is for the active pid, which is
    then a key of the registry, with at least one column and one row;
    the picker call comes from the first render only, over a non-empty
    registry, and opens the list exactly when there are two sessions or
    more. *)
Theorem X8_render_calls_are_bounded
    (prev : option Props) (p : Props) (st : LocalState) :
  (List.length (snd (commit prev p st)) <= 2)%nat
  /\ (List.length (filter isResizeCall (snd (commit prev p st))) <= 1)%nat
  /\ (List.length (filter isPickerCall (snd (commit prev p st))) <= 1)%nat
  /\ forall c : Call,
       In c (snd (commit prev p st)) ->
       match c with
       | ResizePty q cols rows =>
           q = activePid p /\ mapHas (shells p) q = true
           /\ 1 <= cols /\ 1 <= rows
       | SetIsBackgroundShellListOpen b =>
           prev = None /\ 1 <= mapSize (shells p)
           /\ b = (1 <? mapSize (shells p))
       | _ => False
       end.
Proof.
  unfold commit. cbn [snd]. unfold resizeCalls, mountCalls.
  assert (Hr : (List.length (resizeEffect p) <= 1)%nat
               /\ forall c, In c (resizeEffect p) ->
                    match c with
                    | ResizePty q cols rows =>
                        q = activePid p /\ mapHas (shells p) q = true
                        /\ 1 <= cols /\ 1 <= rows
                    | _ => False
                    end).
  { unfold resizeEffect.
    destruct (mapHas (shells p) (activePid p)) eqn:Hhas; simpl.
    - split; [lia|]. intros c [<- | []]. repeat split; auto; lia.
    - split; [lia|]. intros c []. }
  assert (Hm : (List.length (mountEffect p) <= 1)%nat
               /\ forall c, In c (mountEffect p) ->
                    match c with
                    | SetIsBackgroundShellListOpen b =>
                        1 <= mapSize (shells p)
                        /\ b = (1 <? mapSize (shells p))
                    | _ => False
                    end).
  { unfold mountEffect.
    destruct (Z.eqb_spec (mapSize (shells p)) 1) as [H1 | H1]; simpl.
    - split; [lia|]. intros c [<- | []]. rewrite H1. split; [lia|reflexivity].
    - rewrite Z.gtb_ltb.
      destruct (Z.ltb_spec 1 (mapSize (shells p))); simpl.
      + split; [lia|]. intros c [<- | []]. split; [lia|reflexivity].
      + split; [lia|]. intros c []. }
  destruct Hr as [Hrl Hrc], Hm as [Hml Hmc].
  split; [|split; [|split]].
  - rewrite length_app.
    destruct (effectFires resizeDepsSame prev p),
             (effectFires mountDepsSame prev p); simpl; lia.
  - rewrite filter_app, length_app.
    destruct (effectFires resizeDepsSame prev p),
             (effectFires mountDepsSame prev p);
      rewrite ?(proj1 (resizeEffect_only_resizes p)),
              ?(proj2 (mountEffect_only_picker p)); simpl; lia.
  - rewrite filter_app, length_app.
    destruct (effectFires resizeDepsSame prev p),
             (effectFires mountDepsSame prev p);
      rewrite ?(proj2 (resizeEffect_only_resizes p)),
              ?(proj1 (mountEffect_only_picker p)); simpl; lia.
  - intros c Hc. apply in_app_or in Hc as [Hc | Hc].
    + destruct (effectFires resizeDepsSame prev p); [|destruct Hc].
      specialize (Hrc c Hc). destruct c; auto; contradiction.
    + destruct prev as [q|]; [destruct Hc|]. simpl in Hc.
      specialize (Hmc c Hc). destruct c; try contradiction.
      destruct Hmc. auto.
Qed.

Lemma X8_render_calls_are_bounded_witness :
  1 = activePid Sample.closedTwo
  /\ mapHas (shells Sample.closedTwo) 1 = true /\ 1 <= 76 /\ 1 <= 21.
Proof.
  apply (proj2 (proj2 (proj2 (X8_render_calls_are_bounded None
                                Sample.closedTwo initialState)))
           (ResizePty 1 76 21)).
  left. reflexivity.
Defined.

(** X9.  When the active pid is not a key of the registry, a render
    leaves the local state untouched (the stored output and the
    selection index of the shell that was last active stay) and resizes
    no pty. *)
Theorem X9_render_without_active_shell_keeps_state
    (prev : option Props) (p : Props) (st : LocalState) :
  mapHas (shells p) (activePid p) = false ->
  fst (commit prev p st) = st
  /\ filter isResizeCall (snd (commit prev p st)) = [].
Proof.
  intros Hhas. split.
  - rewrite mapHas_mapGet in Hhas. fold (activeShell p) in Hhas.
    unfold commit. cbn [fst]. unfold outputEffect, listSyncEffect.
    destruct (activeShell p); [discriminate|].
    destruct (effectFires outputDepsSame prev p),
             (effectFires listSyncDepsSame prev p),
             (isListOpenProp p); reflexivity.
  - rewrite commit_resize_calls. unfold resizeCalls, resizeEffect.
    rewrite Hhas. now destruct (effectFires resizeDepsSame prev p).
Qed.

Lemma X9_render_without_active_shell_keeps_state_witness :
  fst (commit (Some Sample.openThree) Sample.openGone (Sample.at_index 2))
  = Sample.at_index 2
  /\ filter isResizeCall
       (snd (commit (Some Sample.openThree) Sample.openGone
               (Sample.at_index 2)))
     = [].
Proof.
  apply (X9_render_without_active_shell_keeps_state
           (Some Sample.openThree) Sample.openGone (Sample.at_index 2)).
  reflexivity.
Defined.

(** ** The tab layout for every width *)

(** The loop stops after a prefix of the sessions that fits and that no
    further label can join. *)
Lemma tabsLoop_stops (active avail : Z) (rest : list BackgroundShell) :
  forall (i : nat) (tabs : list TextElem) (cw : Z),
    exists N : nat,
      (N <= List.length rest)%nat
      /\ ((0 < N)%nat -> cw + labelsWidth i (firstn N rest) <= avail)
      /\ ((N < List.length rest)%nat ->
          cw + labelsWidth i (firstn (S N) rest) > avail)
      /\ tabsLoop active avail i rest tabs cw
         = (tabs ++ sessionTabs active i (firstn N rest),
            (N <? List.length rest)%nat).
Proof.
  induction rest as [|sh rest IH]; intros i tabs cw.
  - exists 0%nat. simpl. rewrite app_nil_r. repeat split; try lia.
  - cbn [tabsLoop].
    destruct (Z.gtb_spec (cw + Z.of_nat (String.length (tabLabel i sh)))
                avail) as [Hno | Hfit].
    + exists 0%nat. cbn [firstn sessionTabs labelsWidth List.length].
      rewrite app_nil_r. repeat split; try lia.
    + destruct (IH (S i) (tabs ++ [tabElem active (tabLabel i sh) sh])
                  (cw + Z.of_nat (String.length (tabLabel i sh))))
        as (N & Hle & Hin & Hout & Heq).
      exists (S N). cbn [firstn sessionTabs labelsWidth List.length].
      split; [lia|]. split; [|split].
      * intros _. destruct N as [|N].
        -- cbn [firstn labelsWidth]. lia.
        -- specialize (Hin ltac:(lia)). lia.
      * intros HN. specialize (Hout ltac:(lia)).
        cbn [firstn labelsWidth] in Hout. lia.
      * rewrite Heq, <- app_assoc. reflexivity.
Qed.

Lemma layout_stops (p : Props) :
  let sessions := mapValues (shells p) in
  exists N : nat,
    (N <= List.length sessions)%nat
    /\ ((0 < N)%nat -> prefixWidth N sessions <= availableWidth p)
    /\ ((N < List.length sessions)%nat ->
        availableWidth p < prefixWidth (S N) sessions)
    /\ layout p = (firstn N (sessionTabs (activePid p) 0 sessions),
                   (N <? List.length sessions)%nat).
Proof.
  intros sessions.
  destruct (tabsLoop_stops (activePid p) (availableWidth p) sessions 0 [] 0)
    as (N & Hle & Hin & Hout & Heq).
  exists N. unfold prefixWidth. split; [exact Hle|].
  split; [intros H; specialize (Hin H); lia|].
  split; [intros H; specialize (Hout H); lia|].
  unfold layout. fold sessions. rewrite Heq. simpl.
  now rewrite sessionTabs_firstn.
Qed.

Lemma layout_length (p : Props) (N : nat) :
  (N <= List.length (mapValues (shells p)))%nat ->
  List.length (firstn N (sessionTabs (activePid p) 0 (mapValues (shells p))))
  = N.
Proof.
  intros H. rewrite length_firstn, sessionTabs_length. lia.
Qed.

(** X10.  For every registry and every width, the tabs the loop returns
    are those of a prefix of the sessions, in the order of the registry;
    when there is a tab at all, the labels of the prefix fit into the
    label budget; [overflow] is set exactly when some session got no
    tab, and then the label of the first session left out would not
    have fitted. *)
Theorem X10_layout_is_the_longest_fitting_prefix (p : Props) :
  let sessions := mapValues (shells p) in
  let N := List.length (fst (layout p)) in
  fst (layout p) = firstn N (sessionTabs (activePid p) 0 sessions)
  /\ (N <= List.length sessions)%nat
  /\ ((0 < N)%nat -> prefixWidth N sessions <= availableWidth p)
  /\ snd (layout p) = (N <? List.length sessions)%nat
  /\ (snd (layout p) = true ->
      availableWidth p < prefixWidth (S N) sessions).
Proof.
  intros sessions N.
  destruct (layout_stops p) as (M & Hle & Hin & Hout & Heq).
  fold sessions in Hle, Hin, Hout, Heq.
  assert (HN : N = M).
  { unfold N. rewrite Heq. cbn [fst]. now apply layout_length. }
  rewrite HN, Heq. cbn [fst snd].
  repeat split; auto.
  intros H. apply Hout. now apply Nat.ltb_lt.
Qed.

Lemma X10_layout_is_the_longest_fitting_prefix_witness :
  availableWidth Sample.narrowFive
  < prefixWidth (S (List.length (fst (layout Sample.narrowFive))))
      (mapValues (shells Sample.narrowFive)).
Proof.
  apply (proj2 (proj2 (proj2 (proj2
           (X10_layout_is_the_longest_fitting_prefix Sample.narrowFive))))).
  reflexivity.
Defined.

Lemma labelsWidth_firstn_mono (l : list BackgroundShell) :
  forall (i n m : nat),
    (n <= m)%nat ->
    labelsWidth i (firstn n l) <= labelsWidth i (firstn m l).
Proof.
  induction l as [|sh l IH]; intros i n m Hnm.
  - rewrite !firstn_nil. lia.
  - destruct n as [|n], m as [|m]; try lia; cbn [firstn labelsWidth].
    + pose proof (labelsWidth_nonneg (firstn m l) (S i)). lia.
    + specialize (IH (S i) n m ltac:(lia)). lia.
Qed.

(** X11.  A wider panel never shows fewer tabs: the number of tabs the
    loop returns is monotone in the width. *)
Theorem X11_layout_is_monotone_in_width (p : Props) (w : Z) :
  width p <= w ->
  (List.length (fst (layout p))
   <= List.length (fst (layout (withWidth p w))))%nat.
Proof.
  intros Hw.
  destruct (layout_stops p) as (N & Hle & Hin & _ & Heq).
  destruct (layout_stops (withWidth p w)) as (M & Hle' & _ & Hout' & Heq').
  rewrite Heq, Heq'. cbn [fst].
  rewrite layout_length by exact Hle.
  rewrite (layout_length (withWidth p w)) by exact Hle'.
  change (mapValues (shells (withWidth p w)))
    with (mapValues (shells p)) in *.
  destruct (Nat.le_gt_cases N M) as [H | H]; [exact H|].
  exfalso.
  specialize (Hin ltac:(lia)). specialize (Hout' ltac:(lia)).
  pose proof (labelsWidth_firstn_mono (mapValues (shells p)) 0 (S M) N H).
  unfold prefixWidth, availableWidth in *. cbn [width withWidth] in *. lia.
Qed.

Lemma X11_layout_is_monotone_in_width_witness :
  (List.length (fst (layout Sample.narrowFive))
   <= List.length (fst (layout (withWidth Sample.narrowFive 120))))%nat.
Proof.
  apply (X11_layout_is_monotone_in_width Sample.narrowFive 120).
  vm_compute. discriminate.
Defined.

Lemma tabLabel_command (i : nat) (a b : BackgroundShell) :
  command a = command b -> tabLabel i a = tabLabel i b.
Proof. intros H. unfold tabLabel. now rewrite H. Qed.

Lemma labelsWidth_commands (l : list BackgroundShell) :
  forall (l' : list BackgroundShell) (i : nat),
    map command l = map command l' -> labelsWidth i l = labelsWidth i l'.
Proof.
  induction l as [|a l IH]; intros [|b l'] i H; try discriminate.
  - reflexivity.
  - injection H as Hc Hl. cbn [labelsWidth].
    now rewrite (tabLabel_command i a b Hc), (IH l' (S i) Hl).
Qed.

(** X12.  Which sessions get a tab depends on the commands and on the
    width only: two renders of the same width whose registries hold the
    same commands in the same order show the same number of tabs and
    agree on [overflow], whatever the pids, the statuses (the
    ["(Exited)"] suffix is not counted) and the active pid are. *)
Theorem X12_layout_depends_on_commands_and_width (p p' : Props) :
  map command (mapValues (shells p)) = map command (mapValues (shells p')) ->
  width p = width p' ->
  List.length (fst (layout p)) = List.length (fst (layout p'))
  /\ snd (layout p) = snd (layout p').
Proof.
  intros Hcmd Hw.
  assert (Hlen : List.length (mapValues (shells p))
                 = List.length (mapValues (shells p'))).
  { rewrite <- (length_map command (mapValues (shells p))), Hcmd.
    apply length_map. }
  assert (Hwidth : forall n : nat,
            labelsWidth 0 (firstn n (mapValues (shells p)))
            = labelsWidth 0 (firstn n (mapValues (shells p')))).
  { intros n. apply labelsWidth_commands.
    now rewrite <- !firstn_map, Hcmd. }
  destruct (layout_stops p) as (N & Hle & Hin & Hout & Heq).
  unfold prefixWidth in Hin, Hout.
  assert (Heq' : layout p'
            = (tabsLoop (activePid p') (availableWidth p') 0
                 (mapValues (shells p')) [] 0)) by reflexivity.
  rewrite (tabsLoop_fits _ _ _ N) in Heq'.
  - rewrite Heq, Heq'. cbn [fst snd app].
    rewrite sessionTabs_length, length_firstn, length_firstn,
      sessionTabs_length, Hlen.
    split; reflexivity.
  - lia.
  - intros H. specialize (Hin H). rewrite <- Hwidth.
    unfold availableWidth in *. rewrite <- Hw. lia.
  - intros H. rewrite <- Hlen in H. specialize (Hout H).
    rewrite <- Hwidth. unfold availableWidth in *. rewrite <- Hw. lia.
Qed.

Lemma X12_layout_depends_on_commands_and_width_witness :
  List.length (fst (layout Sample.narrowFive))
  = List.length (fst (layout (mkProps Sample.five 1 72 10 false true)))
  /\ snd (layout Sample.narrowFive)
     = snd (layout (mkProps Sample.five 1 72 10 false true)).
Proof.
  apply (X12_layout_depends_on_commands_and_width Sample.narrowFive
           (mkProps Sample.five 1 72 10 false true)); reflexivity.
Defined.

(** X13.  Every tab the loop returns is keyed by the pid of its shell.
    It is bold and has a background exactly when that pid is the active
    pid, and it is red exactly when the shell is not active and has
    exited. *)
Theorem X13_only_the_active_tab_is_highlighted
    (p : Props) (i : nat) (e : TextElem) :
  nth_error (fst (layout p)) i = Some e ->
  exists sh : BackgroundShell,
    nth_error (mapValues (shells p)) i = Some sh
    /\ key e = KeyPid (pid sh)
    /\ (bold e = true <-> pid sh = activePid p)
    /\ (backgroundColor e <> None <-> pid sh = activePid p)
    /\ (color e = red <-> pid sh <> activePid p /\ status sh = exited).
Proof.
  intros He.
  destruct (layout_stops p) as (N & _ & _ & _ & Heq).
  rewrite Heq in He. cbn [fst] in He.
  rewrite <- sessionTabs_firstn in He.
  destruct (sessionTabs_nth _ _ _ _ _ He) as (sh & Hsh & ->).
  apply nth_error_firstn_some in Hsh.
  exists sh. split; [exact Hsh|]. unfold tabElem. cbn.
  split; [reflexivity|].
  destruct (Z.eqb_spec (pid sh) (activePid p)) as [Ha | Ha];
    destruct (status sh); cbn; repeat split; intros; try tauto;
    try discriminate; try congruence.
  all: try (destruct H; congruence).
Qed.

Lemma X13_only_the_active_tab_is_highlighted_witness :
  exists sh : BackgroundShell,
    nth_error (mapValues (shells Sample.narrowFive)) 0 = Some sh
    /\ key (tabElem 3 (tabLabel 0 Sample.npm) Sample.npm) = KeyPid (pid sh)
    /\ (bold (tabElem 3 (tabLabel 0 Sample.npm) Sample.npm) = true
        <-> pid sh = activePid Sample.narrowFive)
    /\ (backgroundColor (tabElem 3 (tabLabel 0 Sample.npm) Sample.npm)
        <> None <-> pid sh = activePid Sample.narrowFive)
    /\ (color (tabElem 3 (tabLabel 0 Sample.npm) Sample.npm) = red
        <-> pid sh <> activePid Sample.narrowFive /\ status sh = exited).
Proof.
  apply (X13_only_the_active_tab_is_highlighted Sample.narrowFive 0%nat).
  reflexivity.
Defined.

Lemma string_length_app (a b : string) :
  String.length (a ++ b) = (String.length a + String.length b)%nat.
Proof. induction a as [|c a IH]; simpl; [reflexivity | now rewrite IH]. Qed.

Lemma to_little_uint_not_nil (n : nat) :
  forall acc : Decimal.uint,
    acc <> Decimal.Nil -> Nat.to_little_uint n acc <> Decimal.Nil.
Proof.
  induction n as [|n IH]; intros acc H; simpl; [exact H|].
  apply IH. destruct acc; discriminate.
Qed.

Lemma revapp_length (d : Decimal.uint) :
  forall acc : Decimal.uint,
    (String.length (NilEmpty.string_of_uint acc)
     <= String.length (NilEmpty.string_of_uint (Decimal.revapp d acc)))%nat
    /\ (d <> Decimal.Nil ->
        (1 <= String.length
                (NilEmpty.string_of_uint (Decimal.revapp d acc)))%nat).
Proof.
  induction d as [|d IH|d IH|d IH|d IH|d IH|d IH|d IH|d IH|d IH|d IH];
    intros acc; simpl;
    [split; [lia | congruence] | ..];
    match goal with
    | |- context [Decimal.revapp d ?a] =>
        destruct (IH a) as [Hle _]; simpl in Hle; split; intros; lia
    end.
Qed.

Lemma numToString_nonempty (n : nat) : (1 <= String.length (numToString n))%nat.
Proof.
  unfold numToString, Nat.to_uint, Decimal.rev.
  apply revapp_length. apply to_little_uint_not_nil. discriminate.
Qed.

Lemma tabLabel_length (i : nat) (sh : BackgroundShell) :
  5 <= Z.of_nat (String.length (tabLabel i sh)).
Proof.
  unfold tabLabel. rewrite !string_length_app.
  pose proof (numToString_nonempty (i + 1)). simpl String.length at 1.
  change (String.length ": ") with 2%nat.
  change (String.length " ") with 1%nat. lia.
Qed.

(** X14.  Over an empty registry [renderTabs] returns nothing, for any
    width.  Over a non-empty registry in a panel less than 59 cells
    wide (a label budget below 5, the width of the shortest possible
    label) it returns the [" ... (Ctrl+O) "] element alone. *)
Theorem X14_narrow_panel_shows_only_the_overflow_hint (p : Props) :
  (mapSize (shells p) = 0 -> renderTabs p = [])
  /\ (0 < mapSize (shells p) -> width p < 59 ->
      renderTabs p = [overflowElem]).
Proof.
  unfold renderTabs, layout, mapSize, mapValues.
  destruct (entries (shells p)) as [|[k sh] l]; split; intros H;
    cbn [map tabsLoop List.length] in *; try reflexivity; try lia.
  intros Hw. pose proof (tabLabel_length 0 sh) as Hlab.
  destruct (Z.gtb_spec (0 + Z.of_nat (String.length (tabLabel 0 (snd (k, sh)))))
              (availableWidth p)) as [_ | Hfit]; [reflexivity|].
  exfalso. unfold availableWidth, TAB_DISPLAY_HORIZONTAL_PADDING,
             pidTextEstimate, RIGHT_TEXT in Hfit.
  cbn [snd] in Hfit. change (Z.of_nat (String.length
    "Ctrl+B Hide | Ctrl+K Kill")) with 25 in Hfit. lia.
Qed.

Lemma X14_narrow_panel_shows_only_the_overflow_hint_witness :
  renderTabs (withWidth Sample.narrowFive 58) = [overflowElem]
  /\ renderTabs Sample.emptyFocused = [].
Proof.
  split.
  - apply (proj2 (X14_narrow_panel_shows_only_the_overflow_hint
                    (withWidth Sample.narrowFive 58))); reflexivity.
  - apply (proj1 (X14_narrow_panel_shows_only_the_overflow_hint
                    Sample.emptyFocused)). reflexivity.
Defined.

(** ** The process list *)

Lemma processRows_nth (sel : Z) (l : list BackgroundShell) :
  forall (i0 i : nat) (r : RowElem),
    nth_error (processRows sel i0 l) i = Some r ->
    exists sh : BackgroundShell,
      nth_error l i = Some sh /\ r = processRow sel (i0 + i) sh.
Proof.
  induction l as [|sh l IH]; intros i0 [|i] r; simpl; try discriminate.
  - intros [= <-]. exists sh. now rewrite Nat.add_0_r.
  - intros H. destruct (IH (S i0) i r H) as (sh' & Hn & Hr).
    exists sh'. split; [exact Hn|].
    now replace (i0 + S i)%nat with (S i0 + i)%nat by lia.
Qed.

Lemma processRows_length (sel : Z) (l : list BackgroundShell) :
  forall i0 : nat, List.length (processRows sel i0 l) = List.length l.
Proof.
  induction l as [|sh l IH]; intros i0; simpl; [reflexivity|].
  now rewrite IH.
Qed.

Lemma processRows_keys (sel : Z) (l : list BackgroundShell) :
  forall i0 : nat,
    map rowKey (processRows sel i0 l) = map (fun sh => KeyPid (pid sh)) l.
Proof.
  induction l as [|sh l IH]; intros i0; simpl; [reflexivity|].
  now rewrite IH.
Qed.

Lemma processRow_selected (sel : Z) (i : nat) (sh : BackgroundShell) :
  isSelectedRow (processRow sel i sh) = (Z.of_nat i =? sel).
Proof.
  unfold isSelectedRow, processRow. cbn.
  destruct (Z.of_nat i =? sel); reflexivity.
Qed.

Lemma processRows_selected_count (sel : Z) (l : list BackgroundShell) :
  forall i0 : nat,
    List.length (filter isSelectedRow (processRows sel i0 l))
    = if (Z.of_nat i0 <=? sel) && (sel <? Z.of_nat i0 + Z.of_nat (List.length l))
      then 1%nat else 0%nat.
Proof.
  induction l as [|sh l IH]; intros i0; cbn [processRows filter List.length].
  - destruct (Z.leb_spec (Z.of_nat i0) sel), (Z.ltb_spec sel (Z.of_nat i0 + Z.of_nat 0));
      simpl; try reflexivity; lia.
  - rewrite processRow_selected.
    destruct (Z.eqb_spec (Z.of_nat i0) sel) as [He | He];
      cbn [List.length]; rewrite IH.
    + destruct (Z.leb_spec (Z.of_nat (S i0)) sel); [lia|].
      destruct (Z.leb_spec (Z.of_nat i0) sel); [|lia].
      destruct (Z.ltb_spec sel (Z.of_nat i0 + Z.of_nat (S (List.length l))));
        [reflexivity | lia].
    + destruct (Z.leb_spec (Z.of_nat (S i0)) sel),
               (Z.leb_spec (Z.of_nat i0) sel),
               (Z.ltb_spec sel (Z.of_nat (S i0) + Z.of_nat (List.length l))),
               (Z.ltb_spec sel (Z.of_nat i0 + Z.of_nat (S (List.length l))));
        simpl; try reflexivity; lia.
Qed.

(** X15.  The process list has one row per session, keyed by the pids
    in the order of the registry.  The row at position [i] is the
    highlighted one exactly when [i] is the selection index; so exactly
    one row is highlighted when the index lies within the registry, and
    none when it lies beyond. *)
Theorem X15_process_list_highlights_the_selected_row
    (p : Props) (st : LocalState) :
  let rows := snd (renderProcessList p st) in
  List.length rows = List.length (entries (shells p))
  /\ map rowKey rows
     = map (fun sh => KeyPid (pid sh)) (mapValues (shells p))
  /\ (forall (i : nat) (r : RowElem),
        nth_error rows i = Some r ->
        (isSelectedRow r = true <-> Z.of_nat i = listSelectionIndex st))
  /\ List.length (filter isSelectedRow rows)
     = if (0 <=? listSelectionIndex st)
          && (listSelectionIndex st <? mapSize (shells p))
       then 1%nat else 0%nat.
Proof.
  unfold renderProcessList. cbn [snd]. split; [|split; [|split]].
  - rewrite processRows_length. unfold mapValues. apply length_map.
  - apply processRows_keys.
  - intros i r Hr. destruct (processRows_nth _ _ _ _ _ Hr) as (sh & _ & ->).
    rewrite processRow_selected. cbn [Nat.add]. apply Z.eqb_eq.
  - rewrite processRows_selected_count. unfold mapSize, mapValues.
    rewrite length_map. reflexivity.
Qed.

Lemma X15_process_list_highlights_the_selected_row_witness :
  isSelectedRow (processRow 3 3 Sample.jest) = true
  <-> Z.of_nat 3 = listSelectionIndex (Sample.at_index 3).
Proof.
  apply (proj1 (proj2 (proj2
           (X15_process_list_highlights_the_selected_row Sample.openFive
              (Sample.at_index 3)))) 3%nat (processRow 3 3 Sample.jest)).
  reflexivity.
Defined.

Lemma wellKeyed_nth (m : ShellMap) (i : nat) (sh : BackgroundShell) :
  wellKeyed m = true ->
  nth_error (mapValues m) i = Some sh ->
  nth_error (mapKeys m) i = Some (pid sh).
Proof.
  unfold wellKeyed, mapValues, mapKeys. revert i.
  induction (entries m) as [|e l IH]; intros [|i] Hwk H; simpl in *;
    try discriminate; apply andb_true_iff in Hwk as [He Hl].
  - injection H as <-. apply Z.eqb_eq in He. now rewrite He.
  - now apply IH.
Qed.

Lemma handleKeypress_commit toggle (p : Props) (st : LocalState) (k : Key)
    (sh : BackgroundShell) :
  activeShell p = Some sh ->
  isListOpenProp p = true ->
  name k = "return"%string \/ name k = "enter"%string
    \/ (ctrl k = true /\ name k = "o"%string) ->
  handleKeypress toggle p st k = (st, commitSelection (mapKeys (shells p)) st).
Proof.
  intros Hact Hopen Hkey. unfold handleKeypress. rewrite Hact, Hopen.
  destruct Hkey as [Hn | [Hn | [Hctrl Hn]]]; rewrite Hn; simpl;
    rewrite ?Hctrl; reflexivity.
Qed.

Lemma commitSelection_at (keys : list Z) (st : LocalState) (q : Z) :
  0 <= listSelectionIndex st ->
  nth_error keys (Z.to_nat (listSelectionIndex st)) = Some q ->
  q <> 0 ->
  commitSelection keys st
  = [SetActiveBackgroundShellPid q; SetIsBackgroundShellListOpen false].
Proof.
  intros Hpos Hq Hz. unfold commitSelection, arrayGet.
  destruct (Z.ltb_spec (listSelectionIndex st) 0); [lia|].
  rewrite Hq. simpl. destruct (Z.eqb_spec q 0); [contradiction | reflexivity].
Qed.

(** X16.  What is highlighted is what a commit activates: over a
    registry whose entries are stored under the pid of their shell and
    that holds the active pid, a commit (return, enter or Ctrl+O) while
    the process list highlights the row of a pid other than 0 activates
    that pid and closes the list.  When the registry does not hold the
    active pid, the row is highlighted all the same but the key is
    ignored: there is no call. *)
Theorem X16_commit_activates_the_highlighted_row
    toggle (p : Props) (st : LocalState) (k : Key) (r : RowElem) (q : Z) :
  wellKeyed (shells p) = true ->
  isListOpenProp p = true ->
  In r (snd (renderProcessList p st)) ->
  isSelectedRow r = true ->
  rowKey r = KeyPid q ->
  q <> 0 ->
  name k = "return"%string \/ name k = "enter"%string
    \/ (ctrl k = true /\ name k = "o"%string) ->
  handleKeypress toggle p st k
  = (st, if mapHas (shells p) (activePid p)
         then [SetActiveBackgroundShellPid q;
               SetIsBackgroundShellListOpen false]
         else []).
Proof.
  intros Hwk Hopen Hin Hsel Hkeyr Hz Hkey.
  rewrite mapHas_mapGet. fold (activeShell p).
  destruct (activeShell p) as [sh|] eqn:Hact;
    [|now apply handleKeypress_no_active].
  apply In_nth_error in Hin as [i Hi].
  unfold renderProcessList in Hi. cbn [snd] in Hi.
  destruct (processRows_nth _ _ _ _ _ Hi) as (shi & Hshi & ->).
  rewrite processRow_selected in Hsel. cbn [Nat.add] in Hsel.
  apply Z.eqb_eq in Hsel. cbn in Hkeyr. injection Hkeyr as Hq.
  rewrite (handleKeypress_commit toggle p st k sh Hact Hopen Hkey).
  rewrite (commitSelection_at _ st q); [reflexivity | lia | | exact Hz].
  rewrite <- Hsel, Nat2Z.id, <- Hq. now apply wellKeyed_nth.
Qed.

Lemma X16_commit_activates_the_highlighted_row_witness :
  handleKeypress Sample.ctrlB Sample.openFive (Sample.at_index 3)
    (Sample.ctrlKey "o")
  = (Sample.at_index 3,
     [SetActiveBackgroundShellPid 4; SetIsBackgroundShellListOpen false])
  /\ handleKeypress Sample.ctrlB Sample.openGone (Sample.at_index 1)
       (Sample.ctrlKey "o")
     = (Sample.at_index 1, []).
Proof.
  split.
  - apply (X16_commit_activates_the_highlighted_row Sample.ctrlB
             Sample.openFive (Sample.at_index 3) (Sample.ctrlKey "o")
             (processRow 3 3 Sample.jest) 4).
    + reflexivity.
    + reflexivity.
    + simpl. right. right. right. left. reflexivity.
    + reflexivity.
    + reflexivity.
    + discriminate.
    + right. right. split; reflexivity.
  - apply (X16_commit_activates_the_highlighted_row Sample.ctrlB
             Sample.openGone (Sample.at_index 1) (Sample.ctrlKey "o")
             (processRow 1 1 Sample.tsc) 2).
    + reflexivity.
    + reflexivity.
    + simpl. right. left. reflexivity.
    + reflexivity.
    + reflexivity.
    + discriminate.
    + right. right. split; reflexivity.
Defined.




(** ** The panel body *)

(** X18.  The grid viewer and the pty agree on the geometry: with the
    list closed and a grid as stored output, the body renders the grid
    with exactly the columns and rows of the [resizePty] call that the
    resize effect issues for the same props. *)
Theorem X18_grid_viewer_has_the_pty_geometry
    (p : Props) (st : LocalState) (id : Ref) (grid : list (list string))
    (q cols rows : Z) :
  isListOpenProp p = false ->
  outputState st = OutAnsi id grid ->
  In (ResizePty q cols rows) (resizeEffect p) ->
  renderBody p st = BodyAnsi grid cols rows.
Proof.
  intros Hclosed Hout Hin. unfold renderBody. rewrite Hclosed, Hout.
  unfold resizeEffect in Hin.
  destruct (negb (mapHas (shells p) (activePid p))); [destruct Hin|].
  destruct Hin as [Heq | []]. injection Heq as _ <- <-.
  unfold TAB_DISPLAY_HORIZONTAL_PADDING. change (4 / 2) with 2. reflexivity.
Qed.

Lemma X18_grid_viewer_has_the_pty_geometry_witness :
  renderBody Sample.closedOne (mkLocal (OutAnsi 1%positive [["$"%string]]) 0)
  = BodyAnsi [["$"%string]] 76 21.
Proof.
  apply (X18_grid_viewer_has_the_pty_geometry Sample.closedOne
           (mkLocal (OutAnsi 1%positive [["$"%string]]) 0) 1%positive
           [["$"%string]] 1 76 21).
  - reflexivity.
  - reflexivity.
  - left. reflexivity.
Defined.

Lemma handleKeypress_output toggle (p : Props) (st : LocalState) (k : Key) :
  outputState (fst (handleKeypress toggle p st k)) = outputState st.
Proof.
  unfold handleKeypress. destruct (activeShell p); [|reflexivity].
  destruct (isListOpenProp p); handler_cases; reflexivity.
Qed.

Lemma commit_output (prev : option Props) (p : Props) (st : LocalState) :
  outputState (fst (commit prev p st))
  = if effectFires outputDepsSame prev p
    then match activeShell p with
         | Some sh => output sh
         | None => outputState st
         end
    else outputState st.
Proof.
  unfold commit. cbn [fst].
  assert (Hl : forall s, outputState
                 (if effectFires listSyncDepsSame prev p
                  then listSyncEffect p s else s) = outputState s).
  { intros s. destruct (effectFires listSyncDepsSame prev p); [|reflexivity].
    unfold listSyncEffect.
    destruct (isListOpenProp p), (activeShell p); try reflexivity.
    destruct (negb _); reflexivity. }
  rewrite Hl. destruct (effectFires outputDepsSame prev p); [|reflexivity].
  unfold outputEffect. destruct (activeShell p); reflexivity.
Qed.

Lemma step_shows_active_output toggle (c : Component) (e : Event) :
  showsActiveOutput c ->
  match e, rendered c with
  | Render p, Some q => gridKeepsIdentity q p
  | _, _ => True
  end ->
  showsActiveOutput (fst (step toggle c e)).
Proof.
  intros Hc Hid p sh Hr Hact. destruct e as [p' | k]; unfold step in Hr |- *.
  - pose proof (commit_output (rendered c) p' (local c)) as Ho.
    destruct (commit (rendered c) p' (local c)) as [s calls].
    cbn in Hr, Ho |- *. injection Hr as ->. rewrite Ho, Hact.
    destruct (effectFires outputDepsSame (rendered c) p) eqn:Hf;
      [reflexivity|].
    destruct (rendered c) as [q|] eqn:Hq; [|discriminate Hf].
    simpl in Hf. apply negb_false_iff in Hf. unfold outputDepsSame in Hf.
    apply andb_true_iff in Hf as [Hs Ho'].
    rewrite Hact in Hs, Ho'.
    destruct (activeShell q) as [a|] eqn:Ha; [|discriminate Hs].
    rewrite (Hc q a Hq Ha). simpl in Ho'.
    destruct (output a) as [s1 | i g] eqn:Hoa,
             (output sh) as [s2 | j h] eqn:Hob; try discriminate Ho'.
    + apply String.eqb_eq in Ho'. now rewrite Ho'.
    + apply Pos.eqb_eq in Ho'. subst j.
      now rewrite (Hid a sh i g h Ha Hact Hoa Hob).
  - destruct (rendered c) as [q|] eqn:Hq.
    + cbn [fst rendered local] in Hr |- *. injection Hr as ->.
      unfold onKeypress, useKeypress.
      destruct (isActive p).
      * rewrite handleKeypress_output. exact (Hc p sh Hq Hact).
      * exact (Hc p sh Hq Hact).
    + cbn in Hr. rewrite Hq in Hr. discriminate Hr.
Qed.

Lemma step_rendered toggle (c : Component) (e : Event) :
  rendered (fst (step toggle c e))
  = match e with
    | Render p => Some p
    | Keypress _ => rendered c
    end.
Proof.
  destruct e as [p | k]; unfold step.
  - now destruct (commit (rendered c) p (local c)).
  - destruct (rendered c) as [q|] eqn:Hq; [|exact Hq]. reflexivity.
Qed.

(** X19.  When no grid is mutated between two renders, the output
    stored after any sequence of renders and keys is the output of the
    shell that is active in the last render, whenever that render has
    an active shell; with the list closed, this is what the body
    shows. *)
Theorem X19_panel_shows_the_active_output toggle (es : list Event) :
  gridsKeepIdentity None es ->
  forall (p : Props) (sh : BackgroundShell),
    rendered (fst (run toggle unmounted es)) = Some p ->
    activeShell p = Some sh ->
    outputState (local (fst (run toggle unmounted es))) = output sh
    /\ (isListOpenProp p = false ->
        renderBody p (local (fst (run toggle unmounted es)))
        = match output sh with
          | OutText s => BodyText s
          | OutAnsi _ grid =>
              BodyAnsi grid (Z.max 1 (width p - 4)) (Z.max 1 (height p - 3))
          end).
Proof.
  intros Hes.
  assert (Hrun : forall (l : list Event) (c : Component),
            showsActiveOutput c ->
            gridsKeepIdentity (rendered c) l ->
            showsActiveOutput (fst (run toggle c l))).
  { induction l as [|e l IH]; intros c Hc Hl; [exact Hc|].
    rewrite run_cons. cbn [fst]. apply IH.
    - apply step_shows_active_output; [exact Hc|].
      destruct e as [q | k]; [|exact I]. cbn in Hl.
      destruct (rendered c); [apply Hl | exact I].
    - rewrite step_rendered. destruct e as [q | k]; cbn in Hl; tauto. }
  assert (H0 : showsActiveOutput unmounted)
    by (intros p sh Hr; discriminate Hr).
  intros p sh Hr Hact.
  pose proof (Hrun es unmounted H0 Hes p sh Hr Hact) as Hout.
  split; [exact Hout|]. intros Hclosed.
  unfold renderBody. rewrite Hclosed, Hout.
  destruct (output sh); [reflexivity|].
  unfold CONTENT_PADDING_X.
  replace (width p - 2 - 1 * 2) with (width p - 4) by lia. reflexivity.
Qed.

Lemma X19_panel_shows_the_active_output_witness :
  outputState
    (local (fst (run Sample.ctrlB unmounted
                   [Render Sample.closedOne; Keypress (Sample.keyNamed "x");
                    Render Sample.closedTwo])))
  = output Sample.npm.
Proof.
  refine (proj1 (X19_panel_shows_the_active_output Sample.ctrlB
           [Render Sample.closedOne; Keypress (Sample.keyNamed "x");
            Render Sample.closedTwo] _ Sample.closedTwo Sample.npm
           eq_refl eq_refl)).
  simpl. split; [exact I|]. split; [|exact I].
  intros a b i g h _ Hb _ Hob. injection Hb as <-. discriminate Hob.
Defined.

(** ** Forwarding with the list closed *)

(** X20.  With the list closed and an active shell, a key issues at
    most one call.  The keys the panel interprets itself (the toggle
    shortcut, Ctrl+K, Ctrl+O) are never written to the pty, whatever
    sequence they carry.  Every other key that carries a non-empty
    sequence is written to the pty of the active shell in one call, and
    verbatim unless it is named [return] or [backspace]. *)
Theorem X20_closed_list_forwards_every_typed_key
    toggle (p : Props) (st : LocalState) (k : Key) (sh : BackgroundShell) :
  activeShell p = Some sh ->
  isListOpenProp p = false ->
  let calls := snd (handleKeypress toggle p st k) in
  (List.length calls <= 1)%nat
  /\ (toggle k = true
      \/ (ctrl k = true /\ (name k = "k"%string \/ name k = "o"%string)) ->
      filter isWriteCall calls = [])
  /\ (toggle k = false ->
      ~ (ctrl k = true /\ (name k = "k"%string \/ name k = "o"%string)) ->
      truthyStr (sequence k) = true ->
      exists data : string,
        calls = [WriteToPty (pid sh) data]
        /\ (name k <> "return"%string -> name k <> "backspace"%string ->
            sequence k = Some data)).
Proof.
  intros Hact Hclosed calls. subst calls. unfold handleKeypress.
  rewrite Hact, Hclosed. split; [|split].
  - handler_cases; simpl; lia.
  - intros [Ht | [Hc [Hn | Hn]]].
    + now rewrite Ht.
    + rewrite Hc, Hn. destruct (toggle k); reflexivity.
    + rewrite Hc, Hn. destruct (toggle k); reflexivity.
  - intros Ht Hno Hseq. rewrite Ht, Hseq.
    destruct (ctrl k) eqn:Hc; cbn [andb].
    + destruct (String.eqb_spec (name k) "k"); [exfalso; auto|].
      destruct (String.eqb_spec (name k) "o"); [exfalso; auto|].
      destruct (String.eqb_spec (name k) "return");
        [eexists; split; [reflexivity | congruence]|].
      destruct (String.eqb_spec (name k) "backspace");
        [eexists; split; [reflexivity | congruence]|].
      destruct (sequence k) as [s|]; [|discriminate Hseq].
      exists s. split; reflexivity.
    + destruct (String.eqb_spec (name k) "return");
        [eexists; split; [reflexivity | congruence]|].
      destruct (String.eqb_spec (name k) "backspace");
        [eexists; split; [reflexivity | congruence]|].
      destruct (sequence k) as [s|]; [|discriminate Hseq].
      exists s. split; reflexivity.
Qed.

Lemma X20_closed_list_forwards_every_typed_key_witness :
  filter isWriteCall
    (snd (handleKeypress Sample.ctrlB Sample.closedOne initialState
            (mkKey "k" true (Some (String "011"%char EmptyString)))))
  = [].
Proof.
  apply (proj1 (proj2 (X20_closed_list_forwards_every_typed_key Sample.ctrlB
           Sample.closedOne initialState
           (mkKey "k" true (Some (String "011"%char EmptyString)))
           Sample.npm eq_refl eq_refl))).
  right. split; [reflexivity | left; reflexivity].
Defined.

(** ** Keys between two renders *)

(** The callback reads the index that the last render read: [down]
    followed by [return] before the next render moves the index to 3
    and activates the pid at index 2. *)
Lemma commit_reads_the_rendered_index :
  run Sample.ctrlB unmounted
    [Render Sample.openFive; Render Sample.openFive;
     Keypress (Sample.keyNamed "down"); Keypress (Sample.keyNamed "return")]
  = (mkComponent (Some Sample.openFive) (Sample.at_index 3)
       (Sample.at_index 2),
     [[ResizePty 3 76 21; SetIsBackgroundShellListOpen true]; []; [];
      [SetActiveBackgroundShellPid 3; SetIsBackgroundShellListOpen false]]).
Proof. reflexivity. Qed.
